(** * n8n MCP server: tool dispatch, update handler and gateway client

    A shallow embedding of

    - the tool-call dispatcher of [src/config/server.ts],
    - the gateway client [N8nApiClient] of [src/api/n8n-client.ts],
    - the handler [UpdateWorkflowHandler] of [src/tools/workflow/],

    over a small model of the JavaScript values these functions handle,
    with upstream HTTP traffic recorded in an explicit request log. *)

From stdpp Require Import gmap strings list fin_maps pretty.
From Stdlib Require Import ZArith.

#[local] Set Warnings "-register-all".

(** ** JavaScript values

    Tool arguments and response bodies are decoded JSON.  Numbers are
    restricted to integers (of a size that prints in plain decimal): the
    program never computes with them, it only tests their truthiness,
    compares them and prints them.  [JUndefined] is the value of a
    property that is absent.  Objects are finite maps from property names
    to values: the order of the properties plays no role in the program. *)
Module JS.

Inductive value : Type :=
| JUndefined
| JNull
| JBool (b : bool)
| JNum (n : Z)
| JStr (s : string)
| JArr (l : list value)
| JObj (o : gmap string value).

(** The double-quote character, as it occurs inside template literals. *)
Definition dquote : string :=
  String (Ascii.Ascii false true false false false true false false) EmptyString.

(** [!!v]: everything is truthy except [undefined], [null], [false], [0]
    and the empty string. *)
Definition truthy (v : value) : bool :=
  match v with
  | JUndefined | JNull => false
  | JBool b => b
  | JNum n => negb (n =? 0)%Z
  | JStr s => negb (bool_decide (s = EmptyString))
  | JArr _ | JObj _ => true
  end.

(** [a || b] *)
Definition or_else (a b : value) : value := if truthy a then a else b.

(** [a === b].  Primitives compare by value.  Arrays and objects compare
    by reference; every comparison in the program has one operand decoded
    from the tool arguments and the other decoded from an upstream
    response (or the constant [undefined]), never the same reference, so
    two arrays or two objects are never strictly equal. *)
Definition strict_eq (a b : value) : bool :=
  match a, b with
  | JUndefined, JUndefined => true
  | JNull, JNull => true
  | JBool x, JBool y => bool_decide (x = y)
  | JNum x, JNum y => bool_decide (x = y)
  | JStr x, JStr y => bool_decide (x = y)
  | _, _ => false
  end.

(** [v] is [undefined] or [null]: a property read on it throws. *)
Definition nullish (v : value) : bool :=
  match v with JUndefined | JNull => true | _ => false end.

(** [v !== undefined] *)
Definition defined (v : value) : bool := negb (strict_eq v JUndefined).

(** [typeof v] *)
Definition typeof (v : value) : string :=
  match v with
  | JUndefined => "undefined"
  | JNull | JArr _ | JObj _ => "object"
  | JBool _ => "boolean"
  | JNum _ => "number"
  | JStr _ => "string"
  end.

(** [Array.isArray(v)] *)
Definition isArray (v : value) : bool :=
  match v with JArr _ => true | _ => false end.

(** [l.join(sep)] on strings already converted. *)
Fixpoint join (sep : string) (l : list string) : string :=
  match l with
  | [] => EmptyString
  | [x] => x
  | x :: rest => x +:+ sep +:+ join sep rest
  end.

(** String conversion as performed by a template literal [`${v}`], for
    the values the header describes: integers that print in plain decimal
    (below 10^21 in magnitude), and arrays and objects that carry no
    [toString] or [valueOf] property of their own. *)
Fixpoint to_string (v : value) : string :=
  match v with
  | JUndefined => "undefined"
  | JNull => "null"
  | JBool true => "true"
  | JBool false => "false"
  | JNum n => pretty n
  | JStr s => s
  | JArr l =>
      join ","
        ((fix elems (l : list value) : list string :=
            match l with
            | [] => []
            | x :: rest =>
                match x with
                | JUndefined | JNull => EmptyString
                | _ => to_string x
                end :: elems rest
            end) l)
  | JObj _ => "[object Object]"
  end.

(** Strings are held as their UTF-8 bytes, while JavaScript indexes a
    string by UTF-16 code units.  [code_units] cuts a string into its code
    units, each as a string of its own: a character of one, two or three
    bytes is one unit; a character of four bytes is a pair of surrogates,
    each written in the three-byte form of its number.  A byte that starts
    no well-formed character counts as a unit by itself. *)
Definition continuation (c : Ascii.ascii) : bool :=
  (N.land (Ascii.N_of_ascii c) 192 =? 128)%N.

Definition three_bytes (u : N) : string :=
  String (Ascii.ascii_of_N (N.lor 224 (N.shiftr u 12)))
    (String (Ascii.ascii_of_N (N.lor 128 (N.land (N.shiftr u 6) 63)))
       (String (Ascii.ascii_of_N (N.lor 128 (N.land u 63))) EmptyString)).

Definition surrogates (c1 c2 c3 c4 : Ascii.ascii) : list string :=
  let point :=
    (N.lor (N.shiftl (N.land (Ascii.N_of_ascii c1) 7) 18)
       (N.lor (N.shiftl (N.land (Ascii.N_of_ascii c2) 63) 12)
          (N.lor (N.shiftl (N.land (Ascii.N_of_ascii c3) 63) 6)
             (N.land (Ascii.N_of_ascii c4) 63))))%N in
  let v := (point - 65536)%N in
  [three_bytes (55296 + N.shiftr v 10)%N; three_bytes (56320 + N.land v 1023)%N].

Fixpoint code_units (s : string) : list string :=
  match s with
  | EmptyString => []
  | String c1 rest1 =>
      let b := Ascii.N_of_ascii c1 in
      let single := String c1 EmptyString :: code_units rest1 in
      if (b <? 128)%N then single
      else
        match rest1 with
        | EmptyString => single
        | String c2 rest2 =>
            if (192 <=? b)%N && (b <? 224)%N && continuation c2
            then String c1 (String c2 EmptyString) :: code_units rest2
            else
              match rest2 with
              | EmptyString => single
              | String c3 rest3 =>
                  if (224 <=? b)%N && (b <? 240)%N
                     && continuation c2 && continuation c3
                  then String c1 (String c2 (String c3 EmptyString))
                       :: code_units rest3
                  else
                    match rest3 with
                    | EmptyString => single
                    | String c4 rest4 =>
                        if (240 <=? b)%N && (b <? 248)%N && continuation c2
                           && continuation c3 && continuation c4
                        then surrogates c1 c2 c3 c4 ++ code_units rest4
                        else single
                    end
              end
        end
  end.

(** Characters of a string as JavaScript indexes them, each as a string
    of one code unit. *)
Definition chars (s : string) : list value := JStr <$> code_units s.

(** Index keys of an array-like: element [i] lives under key [pretty i]. *)
Definition indexed (l : list value) : gmap string value :=
  list_to_map (imap (λ i x, (pretty i, x)) l).

(** Own enumerable properties, as copied by object spread [{...v}].
    Spreading [undefined], [null], a boolean or a number copies nothing. *)
Definition spread (v : value) : gmap string value :=
  match v with
  | JObj o => o
  | JArr l => indexed l
  | JStr s => indexed (chars s)
  | _ => ∅
  end.

(** [o.k] on a value known to be an object (a [Record<string, any>]). *)
Definition prop (o : gmap string value) (k : string) : value :=
  default JUndefined (o !! k).

(** Property read [v.k] on a value that is neither [undefined] nor [null].
    Members inherited from the built-in prototypes (methods) are not
    modelled; the program reads none of them as data. *)
Definition member (v : value) (k : string) : value :=
  match v with
  | JObj o => prop o k
  | JArr l =>
      if bool_decide (k = "length") then JNum (Z.of_nat (length l))
      else prop (indexed l) k
  | JStr s =>
      if bool_decide (k = "length") then JNum (Z.of_nat (length (chars s)))
      else prop (indexed (chars s)) k
  | _ => JUndefined
  end.

End JS.
Import JS.

(** ** Exceptions *)

(** Modelled from the spec: the class [N8nApiError] of [src/errors/index.ts]
    is missing; it is the single normalised error kind carrying a
    descriptive message and an HTTP status when available, and it is an
    [Error] with a [message].

    The other constructors are what else a [throw] can carry: [JsError]
    and [JsTypeError] are the built-in [Error] and [TypeError];
    [AxiosError] is the rejection of the HTTP client (transport failure or
    non-2xx status); [ThrownValue] is any thrown value that is not an
    [Error] instance. *)
Inductive exn : Type :=
| JsError (message : string)
| JsTypeError (message : string)
| N8nApiError (message : string) (statusCode : option Z)
| AxiosError (message : string) (status : option Z)
| ThrownValue (v : value).

(** [error instanceof Error] *)
Definition instanceof_Error (e : exn) : bool :=
  match e with ThrownValue _ => false | _ => true end.

(** [error.message] *)
Definition message_of (e : exn) : string :=
  match e with
  | JsError m | JsTypeError m | N8nApiError m _ | AxiosError m _ => m
  | ThrownValue v => to_string (member v "message")
  end.

(** ** Upstream traffic

    A request as handed to the HTTP client: method, URL relative to the
    base URL, and the JavaScript object given as body (if any). *)
Inductive http_method := GET | POST | PUT | DELETE.

Record request := Request {
  req_method : http_method;
  req_url : string;
  req_body : option value
}.

(** The client either resolves with [response.data] or rejects. *)
Inductive http_result :=
| Resolved (data : value)
| Rejected (e : exn).

(** The world a call runs in: the state of the upstream platform and the
    log of the requests sent so far, oldest first. *)
Record world (Σ : Type) := World {
  upstream : Σ;
  sent : list request
}.
Arguments World {Σ} _ _.
Arguments upstream {Σ} _.
Arguments sent {Σ} _.

(** ** The monad of asynchronous code

    An [async] function run to completion: it returns or throws, and
    leaves a new world behind.  [await] is sequencing. *)
Inductive outcome (A : Type) :=
| Return (a : A)
| Throw (e : exn).
Arguments Return {A} _.
Arguments Throw {A} _.

Definition M (Σ A : Type) : Type := world Σ → outcome A * world Σ.

Definition ret {Σ A} (a : A) : M Σ A := λ w, (Return a, w).

Definition throw {Σ A} (e : exn) : M Σ A := λ w, (Throw e, w).

Definition bind {Σ A B} (m : M Σ A) (k : A → M Σ B) : M Σ B :=
  λ w, match m w with
       | (Return a, w') => k a w'
       | (Throw e, w') => (Throw e, w')
       end.

(** [try { m } catch (e) { h e }] *)
Definition try_catch {Σ A} (m : M Σ A) (h : exn → M Σ A) : M Σ A :=
  λ w, match m w with
       | (Return a, w') => (Return a, w')
       | (Throw e, w') => h e w'
       end.

Notation "'let*' x ':=' m 'in' k" := (bind m (λ x, k))
  (at level 10, x name, m at level 100, k at level 200).

(** Property read [v.k], which throws on [undefined] and [null]. *)
Definition get {Σ} (v : value) (k : string) : M Σ value :=
  if nullish v
  then throw (JsTypeError ("Cannot read properties of " +:+ to_string v
                           +:+ " (reading '" +:+ k +:+ "')"))
  else ret (member v k).

(** ** The gateway client, [N8nApiClient] *)
Module N8nApiClient.
Section Client.

Context {Σ : Type}.

(** The upstream platform: how it answers a request in a given state. *)
Variable serve : request → Σ → http_result * Σ.

(** [handleAxiosError(error, defaultMessage)] of [src/errors/index.ts],
    which is missing: it is taken as a parameter. *)
Variable handleAxiosError : exn → string → exn.

(** One HTTP request through the axios instance. *)
Definition axios (r : request) : M Σ value :=
  λ w, let '(res, s) := serve r (upstream w) in
       let w' := World s (sent w ++ [r]) in
       match res with
       | Resolved data => (Return data, w')
       | Rejected e => (Throw e, w')
       end.

Definition axios_get (url : string) : M Σ value := axios (Request GET url None).
Definition axios_post (url : string) (data : value) : M Σ value :=
  axios (Request POST url (Some data)).
Definition axios_put (url : string) (data : value) : M Σ value :=
  axios (Request PUT url (Some data)).

(** [getWorkflows()] *)
Definition getWorkflows : M Σ value :=
  try_catch
    (let* data := axios_get "/workflows" in
     let* d := get data "data" in
     ret (or_else d (JArr [])))
    (λ error, throw (handleAxiosError error "Failed to fetch workflows")).

(** [getWorkflow(id)] *)
Definition getWorkflow (id : value) : M Σ value :=
  try_catch
    (axios_get ("/workflows/" +:+ to_string id))
    (λ error, throw (handleAxiosError error ("Failed to fetch workflow " +:+ to_string id))).

(** [getExecutions()] *)
Definition getExecutions : M Σ value :=
  try_catch
    (let* data := axios_get "/executions" in
     let* d := get data "data" in
     ret (or_else d (JArr [])))
    (λ error, throw (handleAxiosError error "Failed to fetch executions")).

(** The settings baseline of [createWorkflow]. *)
Definition default_settings : gmap string value :=
  <["saveExecutionProgress" := JBool true]>
  (<["saveManualExecutions" := JBool true]>
  (<["saveDataErrorExecution" := JStr "all"]>
  (<["saveDataSuccessExecution" := JStr "all"]>
  (<["executionTimeout" := JNum 3600]>
  (<["timezone" := JStr "UTC"]> ∅))))).

(** The object literal [workflowToCreate].  In [{...a, ...b}] the keys of
    [b] win: that is [spread b ∪ spread a]. *)
Definition workflowToCreate (workflow : gmap string value) : value :=
  JObj
    (<["name" := prop workflow "name"]>
    (<["nodes" := or_else (prop workflow "nodes") (JArr [])]>
    (<["connections" := or_else (prop workflow "connections") (JObj ∅)]>
    (<["settings" := JObj (spread (prop workflow "settings") ∪ default_settings)]>
    (<["active" := or_else (prop workflow "active") (JBool false)]>
    (<["tags" := or_else (prop workflow "tags") (JArr [])]> ∅)))))).

(** [createWorkflow(workflow)] *)
Definition createWorkflow (workflow : gmap string value) : M Σ value :=
  try_catch
    (axios_post "/workflows" (workflowToCreate workflow))
    (λ error, throw (handleAxiosError error "Failed to create workflow")).

(** [w.k !== undefined ? w.k : current.k] *)
Definition supplied_or_current (workflow : gmap string value) (current : value)
    (k : string) : M Σ value :=
  if defined (prop workflow k) then ret (prop workflow k) else get current k.

(** [updateWorkflow(id, workflow)] *)
Definition updateWorkflow (id : value) (workflow : gmap string value) : M Σ value :=
  try_catch
    (let* currentWorkflow := getWorkflow id in
     let* name := supplied_or_current workflow currentWorkflow "name" in
     let* nodes := supplied_or_current workflow currentWorkflow "nodes" in
     let* connections := supplied_or_current workflow currentWorkflow "connections" in
     let* currentSettings := get currentWorkflow "settings" in
     let* active := supplied_or_current workflow currentWorkflow "active" in
     let* tags := supplied_or_current workflow currentWorkflow "tags" in
     let updatedWorkflow :=
       JObj
         (<["name" := name]>
         (<["nodes" := nodes]>
         (<["connections" := connections]>
         (<["settings" := JObj (spread (prop workflow "settings") ∪ spread currentSettings)]>
         (<["active" := active]>
         (<["tags" := tags]> (spread currentWorkflow))))))) in
     axios_put ("/workflows/" +:+ to_string id) updatedWorkflow)
    (λ error, throw (handleAxiosError error ("Failed to update workflow " +:+ to_string id))).

End Client.
End N8nApiClient.
Import N8nApiClient.

(** ** Result envelopes, [ToolCallResult] *)
Inductive content_block :=
| TextContent (text : string)
| JsonContent (json : value).

Record ToolCallResult := Envelope {
  content : list content_block;
  isError : bool
}.

(** Modelled from the spec: [formatSuccess] of the base handler
    [src/tools/workflow/base-handler.ts], which is missing.  A success
    envelope is a human-readable summary plus a structured JSON payload. *)
Definition formatSuccess (data : value) (message : string) : ToolCallResult :=
  Envelope [TextContent message; JsonContent data] false.

(** Modelled from the spec: [formatError] of the missing base handler.  An
    error envelope carries the error's message as its text. *)
Definition formatError (message : string) : ToolCallResult :=
  Envelope [TextContent message] true.

(** The human-readable summary of an envelope: its first text block. *)
Definition summary (r : ToolCallResult) : option string :=
  match content r with
  | TextContent t :: _ => Some t
  | _ => None
  end.

(** The structured payload of an envelope. *)
Definition payload (r : ToolCallResult) : option value :=
  match content r with
  | [_; JsonContent d] => Some d
  | _ => None
  end.

(** ** The update handler, [UpdateWorkflowHandler] *)
Module UpdateWorkflowHandler.
Section Handler.

Context {Σ : Type}.
Variable serve : request → Σ → http_result * Σ.
Variable handleAxiosError : exn → string → exn.

#[local] Abbreviation getWorkflows := (getWorkflows serve handleAxiosError).
#[local] Abbreviation updateWorkflow := (updateWorkflow serve handleAxiosError).

(** Modelled from the spec: [handleExecution] of the missing base handler.
    It wraps the operation in a single try/catch; any thrown error becomes
    an error envelope whose text is the error's message. *)
Definition handleExecution (handler : gmap string value → M Σ ToolCallResult)
    (args : gmap string value) : M Σ ToolCallResult :=
  try_catch (handler args) (λ error, ret (formatError (message_of error))).

(** [arr.find(pred)] on a list of elements: the first element for which
    [pred] is true, [undefined] if there is none. *)
Fixpoint find_loop (pred : value → M Σ bool) (l : list value) : M Σ value :=
  match l with
  | [] => ret JUndefined
  | w :: rest =>
      let* hit := pred w in
      if hit : bool then ret w else find_loop pred rest
  end.

(** [workflows.find(pred)]; only arrays have a [find] method. *)
Definition array_find (workflows : value) (pred : value → M Σ bool) : M Σ value :=
  match workflows with
  | JArr l => find_loop pred l
  | JUndefined | JNull =>
      throw (JsTypeError ("Cannot read properties of " +:+ to_string workflows
                          +:+ " (reading 'find')"))
  | _ => throw (JsTypeError "workflows.find is not a function")
  end.

(** [if (x !== undefined) data.k = x] *)
Definition assign_if_defined (k : string) (x : value) (data : gmap string value)
    : gmap string value :=
  if defined x then <[k := x]> data else data.

(** The update object [workflowData]: a copy of the found workflow with
    the supplied fields written over it. *)
Definition workflowData (args : gmap string value) (workflow : value)
    : gmap string value :=
  assign_if_defined "tags" (prop args "tags")
    (assign_if_defined "active" (prop args "active")
      (assign_if_defined "connections" (prop args "connections")
        (assign_if_defined "nodes" (prop args "nodes")
          (assign_if_defined "name" (prop args "newName")
            (spread workflow))))).

(** The entries pushed on [changesArray], in order.  [workflow] is truthy
    where this is evaluated, so its property reads cannot throw. *)
Definition name_change (args : gmap string value) (workflow : value) : string :=
  "name: " +:+ dquote +:+ to_string (member workflow "name") +:+ dquote
  +:+ " → " +:+ dquote +:+ to_string (prop args "newName") +:+ dquote.

Definition active_change (args : gmap string value) (workflow : value) : string :=
  "active: " +:+ to_string (member workflow "active")
  +:+ " → " +:+ to_string (prop args "active").

Definition changesArray (args : gmap string value) (workflow : value) : list string :=
  (if defined (prop args "newName")
      && negb (strict_eq (prop args "newName") (member workflow "name"))
   then [name_change args workflow] else [])
  ++ (if defined (prop args "active")
         && negb (strict_eq (prop args "active") (member workflow "active"))
      then [active_change args workflow] else [])
  ++ (if defined (prop args "nodes") then ["nodes updated"] else [])
  ++ (if defined (prop args "connections") then ["connections updated"] else [])
  ++ (if defined (prop args "tags") then ["tags updated"] else []).

Definition changesSummary (changes : list string) : string :=
  if (0 <? length changes)%nat
  then "Changes: " +:+ join ", " changes
  else "No changes were made".

Definition missing_name : exn :=
  N8nApiError "Missing required parameter: name" None.

Definition nodes_not_array : exn :=
  N8nApiError ("Parameter " +:+ dquote +:+ "nodes" +:+ dquote +:+ " must be an array") None.

Definition connections_not_object : exn :=
  N8nApiError ("Parameter " +:+ dquote +:+ "connections" +:+ dquote
               +:+ " must be an object") None.

Definition not_found (name : value) : exn :=
  N8nApiError ("Workflow with name " +:+ dquote +:+ to_string name +:+ dquote
               +:+ " not found") None.

(** [nodes && !Array.isArray(nodes)] *)
Definition invalid_nodes (nodes : value) : bool :=
  truthy nodes && negb (isArray nodes).

(** [connections && typeof connections !== 'object'] *)
Definition invalid_connections (connections : value) : bool :=
  truthy connections && negb (bool_decide (typeof connections = "object")).

(** The callback [w => w.name === name] *)
Definition has_name (name : value) (w : value) : M Σ bool :=
  let* n := get w "name" in ret (strict_eq n name).

(** The second half of the operation, from "Prepare update object" on,
    with the workflow that was found.  [workflow] is truthy here, so
    [workflow.id] cannot throw. *)
Definition apply_update (args : gmap string value) (workflow : value)
    : M Σ ToolCallResult :=
  let* updatedWorkflow :=
    updateWorkflow (member workflow "id") (workflowData args workflow) in
  let message :=
    "Workflow updated successfully. "
    +:+ changesSummary (changesArray args workflow) in
  let* id := get updatedWorkflow "id" in
  let* name := get updatedWorkflow "name" in
  let* active := get updatedWorkflow "active" in
  ret (formatSuccess
         (JObj (<["id" := id]> (<["name" := name]> (<["active" := active]> ∅))))
         message).

(** The operation passed to [handleExecution] by
    [UpdateWorkflowHandler.execute]: validation, lookup by name, then
    [apply_update]. *)
Definition update_operation (args : gmap string value) : M Σ ToolCallResult :=
  let name := prop args "name" in
  if negb (truthy name) then throw missing_name
  else if invalid_nodes (prop args "nodes") then throw nodes_not_array
  else if invalid_connections (prop args "connections")
  then throw connections_not_object
  else
    let* workflows := getWorkflows in
    let* workflow := array_find workflows (has_name name) in
    if negb (truthy workflow) then throw (not_found name)
    else apply_update args workflow.

(** [UpdateWorkflowHandler.execute(args)] *)
Definition execute (args : gmap string value) : M Σ ToolCallResult :=
  handleExecution update_operation args.

End Handler.
End UpdateWorkflowHandler.
Import UpdateWorkflowHandler.

(** ** The dispatcher of [server.ts] *)
Module Server.
Section Dispatcher.

Context {Σ : Type}.
Variable serve : request → Σ → http_result * Σ.
Variable handleAxiosError : exn → string → exn.

(** The [execute] methods of the ten other handler classes, which are
    missing, indexed by the tool name they are registered under. *)
Variable other_execute : string → gmap string value → M Σ ToolCallResult.

(** The map [toolHandlers] as [configureServer] fills it. *)
Definition toolHandlers : gmap string (gmap string value → M Σ ToolCallResult) :=
  <["run_webhook" := other_execute "run_webhook"]>
  (<["delete_execution" := other_execute "delete_execution"]>
  (<["get_execution" := other_execute "get_execution"]>
  (<["list_executions" := other_execute "list_executions"]>
  (<["deactivate_workflow" := other_execute "deactivate_workflow"]>
  (<["activate_workflow" := other_execute "activate_workflow"]>
  (<["delete_workflow" := other_execute "delete_workflow"]>
  (<["update_workflow" := UpdateWorkflowHandler.execute serve handleAxiosError]>
  (<["create_workflow" := other_execute "create_workflow"]>
  (<["get_workflow" := other_execute "get_workflow"]>
  (<["list_workflows" := other_execute "list_workflows"]> ∅)))))))))).

(** The text of the envelope built in the dispatcher's [catch]. *)
Definition dispatch_error_text (error : exn) : string :=
  "Error: " +:+ (if instanceof_Error error then message_of error else "Unknown error").

(** The [CallToolRequestSchema] request handler, over a handler map. *)
Definition call_tool
    (handlers : gmap string (gmap string value → M Σ ToolCallResult))
    (toolName : string) (arguments : option (gmap string value))
    : M Σ ToolCallResult :=
  let args := default ∅ arguments in
  try_catch
    (match handlers !! toolName with
     | None => throw (JsError ("Unknown tool: " +:+ toolName))
     | Some handler =>
         let* result := handler args in
         ret (Envelope (content result) (isError result))
     end)
    (λ error, ret (Envelope [TextContent (dispatch_error_text error)] true)).

End Dispatcher.
End Server.
Import Server.

(** ** A reference upstream

    An in-memory stand-in for the automation platform, used to run the
    handler on concrete scenarios: its state is the list of stored
    workflows.  It answers the list request with [{data: [...]}], a fetch
    by id with the stored workflow, and an update by storing and echoing
    the object it is sent. *)
Module Reference.

Definition not_found_404 : http_result :=
  Rejected (AxiosError "Request failed with status code 404" (Some 404%Z)).

Definition has_id (id : string) (w : value) : bool :=
  bool_decide (to_string (member w "id") = id).

Definition id_of_url (url : string) : option string :=
  if String.prefix "/workflows/" url
  then Some (String.substring 11 (String.length url - 11) url)
  else None.

Definition replace_workflow (id : string) (new : value) (s : list value) : list value :=
  (λ w, if has_id id w then new else w) <$> s.

Definition serve (r : request) (s : list value) : http_result * list value :=
  if bool_decide (req_url r = "/workflows") then
    match req_method r, req_body r with
    | GET, _ => (Resolved (JObj {["data" := JArr s]}), s)
    | POST, Some new => (Resolved new, s ++ [new])
    | _, _ => (not_found_404, s)
    end
  else
    match id_of_url (req_url r) with
    | None => (not_found_404, s)
    | Some id =>
        match List.find (has_id id) s with
        | None => (not_found_404, s)
        | Some w =>
            match req_method r, req_body r with
            | GET, _ => (Resolved w, s)
            | PUT, Some new => (Resolved new, replace_workflow id new s)
            | _, _ => (not_found_404, s)
            end
        end
    end.

(** Modelled from the spec: [handleAxiosError] of [src/errors/index.ts],
    which is missing.  A failure is re-raised as the single normalised
    error kind, with a descriptive message and the HTTP status when there
    is one. *)
Definition handleAxiosError (error : exn) (defaultMessage : string) : exn :=
  N8nApiError (defaultMessage +:+ ": " +:+ message_of error)
    (match error with AxiosError _ st | N8nApiError _ st => st | _ => None end).

(** The handlers that are missing from the sources, for scenarios that do
    not call them. *)
Definition other_execute (tool : string) (args : gmap string value)
    : M (list value) ToolCallResult :=
  throw (JsError ("handler not available: " +:+ tool)).

(** A stored workflow named "Test", inactive, without nodes. *)
Definition test_workflow : value :=
  JObj (<["id" := JStr "wf1"]>
       (<["name" := JStr "Test"]>
       (<["active" := JBool false]>
       (<["nodes" := JArr []]>
       (<["connections" := JObj ∅]>
       (<["settings" := JObj ∅]>
       (<["tags" := JArr []]> ∅))))))).

Definition other_workflow : value :=
  JObj (<["id" := JStr "wf0"]>
       (<["name" := JStr "Other"]>
       (<["active" := JBool true]> ∅))).

Definition initial : world (list value) := World [other_workflow; test_workflow] [].

(** A stored workflow whose [tags] field is [null]. *)
Definition untagged_workflow : value :=
  JObj (<["id" := JStr "wf2"]>
       (<["name" := JStr "Plain"]>
       (<["active" := JBool false]>
       (<["tags" := JNull]> ∅)))).

Definition execute := UpdateWorkflowHandler.execute serve handleAxiosError.

(** A workflow to create: it has nodes and settings of its own and is
    active, and leaves out connections and tags. *)
Definition new_workflow : gmap string value :=
  <["name" := JStr "New"]>
  (<["nodes" := JArr [JObj {["name" := JStr "Start"]}]]>
  (<["active" := JBool true]>
  (<["settings" := JObj (<["timezone" := JStr "CET"]>
                        (<["callerPolicy" := JStr "any"]> ∅))]> ∅))).

(** An upstream without state that answers every request with [body]. *)
Definition constant (body : value) (r : request) (s : unit) : http_result * unit :=
  (Resolved body, s).

End Reference.

(** ** Vocabulary of the properties *)

(** The names under which [configureServer] registers a handler. *)
Definition tool_names : list string :=
  ["list_workflows"; "get_workflow"; "create_workflow"; "update_workflow";
   "delete_workflow"; "activate_workflow"; "deactivate_workflow";
   "list_executions"; "get_execution"; "delete_execution"; "run_webhook"].

(** [needle] occurs in [text]. *)
Definition occurs_in (needle text : string) : Prop :=
  ∃ before after, text = before +:+ needle +:+ after.

(** The settings baseline as the specification words it: progress saving
    on, manual executions saved, error and success data kept ("all"), a
    one-hour timeout and the UTC timezone. *)
Definition spec_baseline : gmap string value :=
  list_to_map
    [("saveExecutionProgress", JBool true);
     ("saveManualExecutions", JBool true);
     ("saveDataErrorExecution", JStr "all");
     ("saveDataSuccessExecution", JStr "all");
     ("executionTimeout", JNum 3600);
     ("timezone", JStr "UTC")].

(** The fields of the update payload that replace the fetched ones. *)
Definition caller_fields : list string :=
  ["name"; "nodes"; "connections"; "active"; "tags"].

(** The object [updatedWorkflow] built from a fetched copy that is neither
    [undefined] nor [null]. *)
Definition merged (workflow : gmap string value) (current : value)
    : gmap string value :=
  let pick k := if defined (prop workflow k) then prop workflow k else member current k in
  <["name" := pick "name"]>
  (<["nodes" := pick "nodes"]>
  (<["connections" := pick "connections"]>
  (<["settings" := JObj (spread (prop workflow "settings")
                         ∪ spread (member current "settings"))]>
  (<["active" := pick "active"]>
  (<["tags" := pick "tags"]> (spread current)))))).

(** [x] is a list entry that the callback passes over. *)
Definition no_match (name x : value) : Prop :=
  nullish x = false ∧ strict_eq (member x "name") name = false.

(** [old] is the first entry of [ws] whose name is [name]. *)
Definition first_match (name : value) (ws : list value) (old : value) : Prop :=
  ∃ pre post,
    ws = pre ++ old :: post
    ∧ Forall (no_match name) pre
    ∧ nullish old = false
    ∧ strict_eq (member old "name") name = true.

Definition list_request : request := Request GET "/workflows" None.

Definition fetch_request (id : value) : request :=
  Request GET ("/workflows/" +:+ to_string id) None.

Definition put_request (id : value) (body : value) : request :=
  Request PUT ("/workflows/" +:+ to_string id) (Some body).

(** The envelope of a successful update. *)
Definition success_envelope (args : gmap string value) (old updated : value)
    : ToolCallResult :=
  Envelope
    [TextContent ("Workflow updated successfully. "
                  +:+ changesSummary (changesArray args old));
     JsonContent
       (JObj (<["id" := member updated "id"]>
             (<["name" := member updated "name"]>
             (<["active" := member updated "active"]> ∅))))]
    false.

(** The object sent by the PUT of a call that found [old] and fetched
    [current]. *)
Definition update_body (args : gmap string value) (old current : value) : value :=
  JObj (merged (workflowData args old) current).

(** Which entries the summary lists. *)
Definition listed (args : gmap string value) (old : value) (c : string) : Prop :=
  (c = name_change args old
   ∧ prop args "newName" ≠ JUndefined
   ∧ strict_eq (prop args "newName") (member old "name") = false)
  ∨ (c = active_change args old
     ∧ prop args "active" ≠ JUndefined
     ∧ strict_eq (prop args "active") (member old "active") = false)
  ∨ (c = "nodes updated" ∧ prop args "nodes" ≠ JUndefined)
  ∨ (c = "connections updated" ∧ prop args "connections" ≠ JUndefined)
  ∨ (c = "tags updated" ∧ prop args "tags" ≠ JUndefined).

(** The arguments [{name: "Test", active: true}] and [{name: "Test"}]. *)
Definition activate_Test : gmap string value :=
  <["name" := JStr "Test"]> (<["active" := JBool true]> ∅).

Definition only_name_Test : gmap string value := <["name" := JStr "Test"]> ∅.

(** The arguments [{name: "Nope"}]; no stored workflow has that name. *)
Definition only_name_Nope : gmap string value := <["name" := JStr "Nope"]> ∅.

(** ** The other methods of [N8nApiClient]

    The methods that send one request and hand back [response.data]. *)
Module N8nApiClientMethods.
Section Methods.

Context {Σ : Type}.
Variable serve : request → Σ → http_result * Σ.
Variable handleAxiosError : exn → string → exn.

(** [axiosInstance.delete(url)] and [axiosInstance.post(url)] without data. *)
Definition axios_delete (url : string) : M Σ value :=
  axios serve (Request DELETE url None).
Definition axios_post_empty (url : string) : M Σ value :=
  axios serve (Request POST url None).

(** [getExecution(id)] *)
Definition getExecution (id : value) : M Σ value :=
  try_catch
    (axios_get serve ("/executions/" +:+ to_string id))
    (λ error, throw (handleAxiosError error ("Failed to fetch execution " +:+ to_string id))).

(** [executeWorkflow(id, data)]; [data] is [undefined] when left out. *)
Definition executeWorkflow (id : value) (data : value) : M Σ value :=
  try_catch
    (axios_post serve ("/workflows/" +:+ to_string id +:+ "/execute")
       (or_else data (JObj ∅)))
    (λ error, throw (handleAxiosError error ("Failed to execute workflow " +:+ to_string id))).

(** [deleteWorkflow(id)] *)
Definition deleteWorkflow (id : value) : M Σ value :=
  try_catch
    (axios_delete ("/workflows/" +:+ to_string id))
    (λ error, throw (handleAxiosError error ("Failed to delete workflow " +:+ to_string id))).

(** [activateWorkflow(id)] *)
Definition activateWorkflow (id : value) : M Σ value :=
  try_catch
    (axios_post_empty ("/workflows/" +:+ to_string id +:+ "/activate"))
    (λ error, throw (handleAxiosError error ("Failed to activate workflow " +:+ to_string id))).

(** [deactivateWorkflow(id)] *)
Definition deactivateWorkflow (id : value) : M Σ value :=
  try_catch
    (axios_post_empty ("/workflows/" +:+ to_string id +:+ "/deactivate"))
    (λ error, throw (handleAxiosError error ("Failed to deactivate workflow " +:+ to_string id))).

(** [deleteExecution(id)] *)
Definition deleteExecution (id : value) : M Σ value :=
  try_catch
    (axios_delete ("/executions/" +:+ to_string id))
    (λ error, throw (handleAxiosError error ("Failed to delete execution " +:+ to_string id))).

End Methods.
End N8nApiClientMethods.
Import N8nApiClientMethods.

(** ** The connectivity probe, [N8nApiClient.checkConnectivity]

    The probe looks at [response.status], so here the HTTP client resolves
    with a whole response. *)
Module Connectivity.

Record response := Response {
  status : Z;
  data : value
}.

Inductive reply :=
| Replied (r : response)
| Refused (e : exn).

Section Probe.

Context {Σ : Type}.

(** How the upstream answers, status included. *)
Variable respond : request → Σ → reply * Σ.
Variable handleAxiosError : exn → string → exn.

(** [config.debug] *)
Variable debug : bool.

Definition axios_response (r : request) : M Σ response :=
  λ w, let '(res, s) := respond r (upstream w) in
       let w' := World s (sent w ++ [r]) in
       match res with
       | Replied resp => (Return resp, w')
       | Refused e => (Throw e, w')
       end.

Definition check_failed (status : Z) : exn :=
  N8nApiError "n8n API connectivity check failed" (Some status).

(** [checkConnectivity()].  In debug mode the log line evaluates
    [response.data.data?.length || 0]: the read [response.data.data] throws
    when the body is [undefined] or [null]; [?.length] does not throw. *)
Definition checkConnectivity : M Σ unit :=
  try_catch
    (let* response := axios_response (Request GET "/workflows" None) in
     if negb (status response =? 200)%Z
     then throw (check_failed (status response))
     else if debug
     then (let* found := get (data response) "data" in ret tt)
     else ret tt)
    (λ error, throw (handleAxiosError error "Failed to connect to n8n API")).

End Probe.
End Connectivity.

(** ** Tool definitions *)

(** A [ToolDefinition]: name, description and input schema. *)
Record ToolDefinition := Tool {
  tool_name : string;
  tool_description : string;
  inputSchema : value
}.

(** [acc[k] = v] on a plain object: it adds or replaces the own property
    [k], except for the key [__proto__], which sets the prototype and adds
    no own property. *)
Definition assign_property {A} (k : string) (v : A) (acc : gmap string A)
    : gmap string A :=
  if bool_decide (k = "__proto__") then acc else <[k := v]> acc.

(** The object [toolsObject] of [configureServer]:
    [loadedTools.reduce((acc, tool) => { acc[tool.name] = tool; return acc }, {})]. *)
Definition toolsObject (loadedTools : list ToolDefinition)
    : gmap string ToolDefinition :=
  foldl (λ acc tool, assign_property (tool_name tool) tool acc) ∅ loadedTools.

(** The answer of the [ListToolsRequestSchema] handler. *)
Definition list_tools (loadedTools : list ToolDefinition) : list ToolDefinition :=
  loadedTools.

Definition schema_property (type description : string) : value :=
  JObj (<["type" := JStr type]> (<["description" := JStr description]> ∅)).

Definition schema_array_property (description items : string) : value :=
  JObj (<["type" := JStr "array"]>
       (<["description" := JStr description]>
       (<["items" := JObj (<["type" := JStr items]> ∅)]> ∅))).

(** The [properties] of the input schema of [update_workflow]. *)
Definition update_workflow_properties : gmap string value :=
  <["name" := schema_property "string" "Current name of the workflow to update"]>
  (<["newName" := schema_property "string" "New name for the workflow"]>
  (<["nodes" := schema_array_property
                  "Updated array of node objects that define the workflow" "object"]>
  (<["connections" := schema_property "object"
                        "Updated connection mappings between nodes"]>
  (<["active" := schema_property "boolean" "Whether the workflow should be active"]>
  (<["tags" := schema_array_property
                 "Updated tags to associate with the workflow" "string"]> ∅))))).

(** [getUpdateWorkflowToolDefinition()] *)
Definition getUpdateWorkflowToolDefinition : ToolDefinition :=
  Tool "update_workflow" "Update an existing workflow in n8n"
    (JObj (<["type" := JStr "object"]>
          (<["properties" := JObj update_workflow_properties]>
          (<["required" := JArr [JStr "name"]]> ∅)))).

(** ** More upstreams for scenarios *)
Module Scripted.

(** An upstream that plays a script: each request is answered with the
    next result of the list, and refused when the script is over. *)
Definition refused : http_result :=
  Rejected (AxiosError "connect ECONNREFUSED" None).

Definition serve (r : request) (script : list http_result)
    : http_result * list http_result :=
  match script with
  | [] => (refused, [])
  | answer :: rest => (answer, rest)
  end.

(** The same with whole responses, for the connectivity probe. *)
Definition respond (r : request) (script : list Connectivity.reply)
    : Connectivity.reply * list Connectivity.reply :=
  match script with
  | [] => (Connectivity.Refused (AxiosError "connect ECONNREFUSED" None), [])
  | answer :: rest => (answer, rest)
  end.

End Scripted.

(** ** Vocabulary of the further properties *)


(** The arguments pass the three checks of the handler. *)
Definition passes_checks (args : gmap string value) : bool :=
  truthy (prop args "name")
  && negb (invalid_nodes (prop args "nodes"))
  && negb (invalid_connections (prop args "connections")).

(** The first defined value among the caller's, the list entry's and the
    fetched one. *)
Definition first_defined (a b c : value) : value :=
  if defined a then a else if defined b then b else c.

(** The keys of the object [createWorkflow] sends. *)
Definition created_keys : gset string :=
  {["name"; "nodes"; "connections"; "settings"; "active"; "tags"]}.

(** [m] sends the single request [r]: it hands back what the upstream
    answers, and throws the normalised error with [msg] when refused. *)
Definition sends_only {Σ} (serve : request → Σ → http_result * Σ)
    (handleAxiosError : exn → string → exn)
    (r : request) (msg : string) (m : M Σ value) : Prop :=
  ∀ w,
    sent (snd (m w)) = sent w ++ [r]
    ∧ (∀ d s, serve r (upstream w) = (Resolved d, s) →
         m w = (Return d, World s (sent w ++ [r])))
    ∧ (∀ e s, serve r (upstream w) = (Rejected e, s) →
         m w = (Throw (handleAxiosError e msg), World s (sent w ++ [r]))).

(** The request of the connectivity probe. *)
Definition probe : request := Request GET "/workflows" None.

(** * Properties *)

(** ** JavaScript values *)

Example to_string_array :
  to_string (JArr [JNum 1; JNull; JStr "a"; JArr [JBool true; JNum (-2)]]) = "1,,a,true,-2".
Proof. reflexivity. Qed.

Example member_array_index : member (JArr [JStr "x"; JStr "y"]) "1" = JStr "y".
Proof. vm_compute. reflexivity. Qed.

Example spread_string : spread (JStr "ab") !! "1" = Some (JStr "b").
Proof. vm_compute. reflexivity. Qed.

Example spread_accented :
  spread (JStr "é€") !! "0" = Some (JStr "é")
  ∧ spread (JStr "é€") !! "1" = Some (JStr "€")
  ∧ spread (JStr "é€") !! "2" = None
  ∧ member (JStr "é€") "length" = JNum 2.
Proof. vm_compute. repeat split. Qed.

Example spread_astral :
  member (JStr "a😀") "length" = JNum 3
  ∧ code_units "😀" = [three_bytes 55357; three_bytes 56832].
Proof. vm_compute. repeat split. Qed.

(** ** Running monadic code *)
Section Run.

Context {Σ : Type}.
Implicit Types w : world Σ.

Lemma bind_return {A B} (m : M Σ A) (k : A → M Σ B) w a w1 :
  m w = (Return a, w1) → bind m k w = k a w1.
Proof. intros H. unfold bind. now rewrite H. Qed.

Lemma bind_throw {A B} (m : M Σ A) (k : A → M Σ B) w e w1 :
  m w = (Throw e, w1) → bind m k w = (Throw e, w1).
Proof. intros H. unfold bind. now rewrite H. Qed.

Lemma bind_inv {A B} (m : M Σ A) (k : A → M Σ B) w b w' :
  bind m k w = (Return b, w') →
  ∃ a w1, m w = (Return a, w1) ∧ k a w1 = (Return b, w').
Proof.
  unfold bind. destruct (m w) as [[a|e] w1]; intros H.
  - now exists a, w1.
  - discriminate.
Qed.

Lemma catch_return {A} (m : M Σ A) h w a w1 :
  m w = (Return a, w1) → try_catch m h w = (Return a, w1).
Proof. intros H. unfold try_catch. now rewrite H. Qed.

Lemma catch_throw {A} (m : M Σ A) h w e w1 :
  m w = (Throw e, w1) → try_catch m h w = h e w1.
Proof. intros H. unfold try_catch. now rewrite H. Qed.

Lemma get_ok v k w : nullish v = false → get v k w = (Return (member v k), w).
Proof. intros H. unfold get. now rewrite H. Qed.

Lemma truthy_not_nullish v : truthy v = true → nullish v = false.
Proof. now destruct v. Qed.

Lemma defined_spec v : defined v = true ↔ v ≠ JUndefined.
Proof. destruct v; simpl; split; (congruence || easy). Qed.

End Run.

(** ** The gateway client *)
Section ClientProperties.

Context {Σ : Type}.
Variable serve : request → Σ → http_result * Σ.
Variable handleAxiosError : exn → string → exn.
Implicit Types w : world Σ.

#[local] Abbreviation getWorkflows := (getWorkflows serve handleAxiosError).
#[local] Abbreviation getExecutions := (getExecutions serve handleAxiosError).
#[local] Abbreviation createWorkflow := (createWorkflow serve handleAxiosError).

Lemma axios_resolved r w data s :
  serve r (upstream w) = (Resolved data, s) →
  axios serve r w = (Return data, World s (sent w ++ [r])).
Proof. intros H. unfold axios. now rewrite H. Qed.

Lemma axios_rejected r w e s :
  serve r (upstream w) = (Rejected e, s) →
  axios serve r w = (Throw e, World s (sent w ++ [r])).
Proof. intros H. unfold axios. now rewrite H. Qed.

Lemma axios_sent r w :
  sent (snd (axios serve r w)) = sent w ++ [r].
Proof. unfold axios. destruct (serve r (upstream w)) as [[d|e] s]; reflexivity. Qed.

(** What a list-returning method does with a decoded body. *)
Lemma list_method_resolved url msg w body s :
  serve (Request GET url None) (upstream w) = (Resolved body, s) →
  nullish body = false →
  try_catch
    (let* data := axios_get serve url in
     let* d := get data "data" in
     ret (or_else d (JArr [])))
    (λ error, throw (handleAxiosError error msg)) w
  = (Return (or_else (member body "data") (JArr [])),
     World s (sent w ++ [Request GET url None])).
Proof.
  intros Hs Hb. apply catch_return.
  rewrite (bind_return _ _ _ _ _ (axios_resolved _ _ _ _ Hs)).
  rewrite (bind_return _ _ _ _ _ (get_ok _ _ _ Hb)). reflexivity.
Qed.

(** The default of the two list methods: when the request resolves with a
    body whose [data] field is absent or falsy ([undefined], [null],
    [false], [0] or the empty string), [getWorkflows] and [getExecutions]
    return the empty sequence; a list in the [data] field is returned as
    it is. *)
Theorem list_methods_default_to_empty w body s :
  nullish body = false →
  (truthy (member body "data") = false →
     (serve (Request GET "/workflows" None) (upstream w) = (Resolved body, s) →
      getWorkflows w
      = (Return (JArr []), World s (sent w ++ [Request GET "/workflows" None])))
     ∧ (serve (Request GET "/executions" None) (upstream w) = (Resolved body, s) →
        getExecutions w
        = (Return (JArr []), World s (sent w ++ [Request GET "/executions" None]))))
  ∧ (∀ l, member body "data" = JArr l →
       (serve (Request GET "/workflows" None) (upstream w) = (Resolved body, s) →
        getWorkflows w
        = (Return (JArr l), World s (sent w ++ [Request GET "/workflows" None])))
       ∧ (serve (Request GET "/executions" None) (upstream w) = (Resolved body, s) →
          getExecutions w
          = (Return (JArr l), World s (sent w ++ [Request GET "/executions" None])))).
Proof.
  intros Hb. split; [intros Hd | intros l Hd]; split; intros Hs.
  - pose proof (list_method_resolved _ "Failed to fetch workflows" _ _ _ Hs Hb) as H.
    unfold or_else in H. now rewrite Hd in H.
  - pose proof (list_method_resolved _ "Failed to fetch executions" _ _ _ Hs Hb) as H.
    unfold or_else in H. now rewrite Hd in H.
  - pose proof (list_method_resolved _ "Failed to fetch workflows" _ _ _ Hs Hb) as H.
    now rewrite Hd in H.
  - pose proof (list_method_resolved _ "Failed to fetch executions" _ _ _ Hs Hb) as H.
    now rewrite Hd in H.
Qed.

Lemma createWorkflow_sent workflow w :
  sent (snd (createWorkflow workflow w))
  = sent w ++ [Request POST "/workflows" (Some (workflowToCreate workflow))].
Proof.
  unfold N8nApiClient.createWorkflow, try_catch, axios_post, axios, throw.
  destruct (serve _ (upstream w)) as [[d|e] s]; reflexivity.
Qed.

(** C4: [createWorkflow] sends one POST whose body carries the caller's
    [name]; the caller's [nodes], [connections] and [tags] when they are
    truthy and the empty sequence, mapping and sequence otherwise, in
    particular when they are absent; the caller's [active] when truthy and
    [false] otherwise; and as [settings] the caller's settings merged
    over the baseline, key by key with the caller's keys winning.  Without
    [settings] the body's settings are the baseline, with
    [saveExecutionProgress: true] and [timezone: "UTC"]. *)
Theorem createWorkflow_fills_defaults workflow w :
  ∃ body settings,
    sent (snd (createWorkflow workflow w))
    = sent w ++ [Request POST "/workflows" (Some (JObj body))]
    ∧ body !! "name" = Some (prop workflow "name")
    ∧ body !! "nodes"
      = Some (if truthy (prop workflow "nodes") then prop workflow "nodes" else JArr [])
    ∧ body !! "connections"
      = Some (if truthy (prop workflow "connections")
              then prop workflow "connections" else JObj ∅)
    ∧ body !! "tags"
      = Some (if truthy (prop workflow "tags") then prop workflow "tags" else JArr [])
    ∧ body !! "active"
      = Some (if truthy (prop workflow "active")
              then prop workflow "active" else JBool false)
    ∧ body !! "settings" = Some (JObj settings)
    ∧ (∀ k, settings !! k
            = match spread (prop workflow "settings") !! k with
              | Some v => Some v
              | None => spec_baseline !! k
              end)
    ∧ (∀ caller, workflow !! "settings" = Some (JObj caller) →
         settings = caller ∪ spec_baseline)
    ∧ (workflow !! "nodes" = None → body !! "nodes" = Some (JArr []))
    ∧ (workflow !! "connections" = None → body !! "connections" = Some (JObj ∅))
    ∧ (workflow !! "tags" = None → body !! "tags" = Some (JArr []))
    ∧ (workflow !! "settings" = None →
         settings = spec_baseline
         ∧ settings !! "saveExecutionProgress" = Some (JBool true)
         ∧ settings !! "timezone" = Some (JStr "UTC")).
Proof.
  eexists _, (spread (prop workflow "settings") ∪ default_settings).
  split; [apply createWorkflow_sent|].
  assert (Hbase : default_settings = spec_baseline) by reflexivity.
  do 6 (split; [reflexivity|]).
  split; [|split; [|split; [|split; [|split]]]].
  - intros k. rewrite lookup_union, <- Hbase.
    destruct (spread _ !! k), (default_settings !! k); reflexivity.
  - intros caller Hc. unfold prop. rewrite Hc, <- Hbase. reflexivity.
  - intros H. unfold prop. rewrite H. reflexivity.
  - intros H. unfold prop. rewrite H. reflexivity.
  - intros H. unfold prop. rewrite H. reflexivity.
  - intros H. unfold prop. rewrite H. simpl spread.
    rewrite (left_id_L ∅ (∪)), Hbase. repeat split.
Qed.

#[local] Abbreviation getWorkflow := (getWorkflow serve handleAxiosError).
#[local] Abbreviation updateWorkflow := (updateWorkflow serve handleAxiosError).

Lemma getWorkflow_resolved id w current s :
  serve (Request GET ("/workflows/" +:+ to_string id) None) (upstream w)
  = (Resolved current, s) →
  getWorkflow id w
  = (Return current,
     World s (sent w ++ [Request GET ("/workflows/" +:+ to_string id) None])).
Proof.
  intros Hs. apply catch_return. now apply axios_resolved.
Qed.

Lemma getWorkflow_rejected id w e s :
  serve (Request GET ("/workflows/" +:+ to_string id) None) (upstream w)
  = (Rejected e, s) →
  getWorkflow id w
  = (Throw (handleAxiosError e ("Failed to fetch workflow " +:+ to_string id)),
     World s (sent w ++ [Request GET ("/workflows/" +:+ to_string id) None])).
Proof.
  intros Hs. unfold N8nApiClient.getWorkflow.
  now rewrite (catch_throw _ _ _ _ _ (axios_rejected _ _ _ _ Hs)).
Qed.

Lemma supplied_or_current_ok workflow current k w :
  nullish current = false →
  supplied_or_current workflow current k w
  = (Return (if defined (prop workflow k) then prop workflow k else member current k), w).
Proof.
  intros Hn. unfold supplied_or_current.
  destruct (defined _); [reflexivity | now apply get_ok].
Qed.

#[local] Ltac merged_lookup :=
  unfold merged; repeat (rewrite lookup_insert_ne by discriminate);
  apply lookup_insert_eq.

Lemma updateWorkflow_resolved id workflow w current s :
  serve (Request GET ("/workflows/" +:+ to_string id) None) (upstream w)
  = (Resolved current, s) →
  nullish current = false →
  updateWorkflow id workflow w
  = try_catch
      (axios_put serve ("/workflows/" +:+ to_string id) (JObj (merged workflow current)))
      (λ error, throw (handleAxiosError error
                         ("Failed to update workflow " +:+ to_string id)))
      (World s (sent w ++ [Request GET ("/workflows/" +:+ to_string id) None])).
Proof.
  intros Hs Hn. unfold N8nApiClient.updateWorkflow, try_catch at 1.
  rewrite (bind_return _ _ _ _ _ (getWorkflow_resolved _ _ _ _ Hs)).
  repeat first
    [ rewrite (bind_return _ _ _ _ _ (supplied_or_current_ok _ _ _ _ Hn))
    | rewrite (bind_return _ _ _ _ _ (get_ok _ _ _ Hn)) ].
  reflexivity.
Qed.

Lemma updateWorkflow_nullish id workflow w current s :
  serve (Request GET ("/workflows/" +:+ to_string id) None) (upstream w)
  = (Resolved current, s) →
  nullish current = true →
  ∃ e, updateWorkflow id workflow w
       = (Throw e, World s (sent w ++ [Request GET ("/workflows/" +:+ to_string id) None])).
Proof.
  intros Hs Hn. unfold N8nApiClient.updateWorkflow, try_catch at 1.
  rewrite (bind_return _ _ _ _ _ (getWorkflow_resolved _ _ _ _ Hs)).
  unfold bind, supplied_or_current, get, throw, ret. rewrite Hn.
  repeat destruct (defined _); eexists; reflexivity.
Qed.

Lemma updateWorkflow_rejected id workflow w e s :
  serve (Request GET ("/workflows/" +:+ to_string id) None) (upstream w)
  = (Rejected e, s) →
  ∃ e', updateWorkflow id workflow w
        = (Throw e', World s (sent w ++ [Request GET ("/workflows/" +:+ to_string id) None])).
Proof.
  intros Hs. unfold N8nApiClient.updateWorkflow, try_catch at 1.
  rewrite (bind_throw _ _ _ _ _ (getWorkflow_rejected _ _ _ _ Hs)).
  eexists; reflexivity.
Qed.

Lemma put_sent url data h w :
  sent (snd (try_catch (axios_put serve url data) (λ error, throw (h error)) w))
  = sent w ++ [Request PUT url (Some data)].
Proof.
  unfold try_catch, axios_put, axios, throw.
  destruct (serve _ (upstream w)) as [[d|e] s]; reflexivity.
Qed.

(** C3: [updateWorkflow] is a read-modify-write.  Its first request fetches
    the current workflow.  When that yields a workflow, exactly one more
    request follows, a PUT of the full merged object: the fetched copy in
    which [name], [nodes], [connections], [active] and [tags] are replaced
    by the caller's value only when that is not [undefined], [settings] is
    the caller's settings merged over the fetched ones, and every other
    field is the fetched one.  When the fetch fails, nothing is sent after
    it. *)
Theorem updateWorkflow_read_modify_write id workflow w :
  let url := "/workflows/" +:+ to_string id in
  let fetch := Request GET url None in
  ∃ rest,
    sent (snd (updateWorkflow id workflow w)) = sent w ++ fetch :: rest
    ∧ match fst (serve fetch (upstream w)) with
      | Rejected _ => rest = []
      | Resolved current =>
          if nullish current then rest = []
          else
            ∃ sentObject settings,
              rest = [Request PUT url (Some (JObj sentObject))]
              ∧ (∀ k, k ∈ caller_fields →
                   sentObject !! k
                   = Some (if defined (prop workflow k)
                           then prop workflow k else member current k))
              ∧ sentObject !! "settings" = Some (JObj settings)
              ∧ (∀ k, settings !! k
                      = match spread (prop workflow "settings") !! k with
                        | Some v => Some v
                        | None => spread (member current "settings") !! k
                        end)
              ∧ (∀ k, k ∉ caller_fields → k ≠ "settings" →
                   sentObject !! k = spread current !! k)
      end.
Proof.
  intros url fetch.
  destruct (serve fetch (upstream w)) as [[current|e] s] eqn:Hs; simpl.
  - destruct (nullish current) eqn:Hn.
    + destruct (updateWorkflow_nullish id workflow w _ _ Hs Hn) as [e He].
      exists []. now rewrite He.
    + eexists. split.
      * rewrite (updateWorkflow_resolved id workflow w _ _ Hs Hn), put_sent.
        simpl. rewrite <- app_assoc. reflexivity.
      * eexists _, _. split; [reflexivity|]. split; [|split; [|split]].
        -- intros k Hk. unfold caller_fields in Hk.
           repeat (apply elem_of_cons in Hk as [->|Hk]);
             [merged_lookup.. | now apply elem_of_nil in Hk].
        -- merged_lookup.
        -- intros k. rewrite lookup_union.
           destruct (spread _ !! k), (spread (member _ _) !! k); reflexivity.
        -- intros k Hk Hset. unfold merged, caller_fields in *.
           rewrite !lookup_insert_ne; [reflexivity|set_solver..].
  - destruct (updateWorkflow_rejected id workflow w _ _ Hs) as [e' He].
    exists []. now rewrite He.
Qed.

End ClientProperties.

(** ** The dispatcher *)
Section DispatcherProperties.

Context {Σ : Type}.
Implicit Types w : world Σ.
Implicit Types handlers : gmap string (gmap string value → M Σ ToolCallResult).

Lemma append_empty_r (s : string) : s +:+ EmptyString = s.
Proof.
  induction s as [|c s IH]; [reflexivity|].
  change (String c (s +:+ EmptyString) = String c s). now rewrite IH.
Qed.

Lemma occurs_at_end before needle : occurs_in needle (before +:+ needle).
Proof. exists before, EmptyString. now rewrite append_empty_r. Qed.

Lemma call_tool_returns handlers toolName arguments w :
  ∃ r w', call_tool handlers toolName arguments w = (Return r, w').
Proof.
  unfold call_tool, try_catch. destruct (handlers !! toolName) as [handler|].
  - unfold bind. destruct (handler _ w) as [[r|e] w1]; eexists _, _; reflexivity.
  - eexists _, _; reflexivity.
Qed.

Lemma call_tool_catches handlers toolName arguments w
    (handler : gmap string value → M Σ ToolCallResult) e w1 :
  handlers !! toolName = Some handler →
  handler (default ∅ arguments) w = (Throw e, w1) →
  call_tool handlers toolName arguments w
  = (Return (Envelope [TextContent (dispatch_error_text e)] true), w1).
Proof.
  intros Hh He. unfold call_tool, try_catch. rewrite Hh.
  now rewrite (bind_throw _ _ _ _ _ He).
Qed.

(** C1: a tool name that is not in the handler map yields an error envelope
    whose text contains that name, and nothing is sent; and whatever the
    name and the handlers, [call_tool] returns an envelope and never
    throws: an error thrown by the handler is turned into an error
    envelope. *)
Theorem call_tool_unknown_tool handlers toolName arguments w :
  handlers !! toolName = None →
  (∃ text,
     call_tool handlers toolName arguments w
     = (Return (Envelope [TextContent text] true), w)
     ∧ text = "Error: Unknown tool: " +:+ toolName
     ∧ occurs_in toolName text)
  ∧ (∀ handlers' toolName' arguments' w0,
       (∃ r w', call_tool handlers' toolName' arguments' w0 = (Return r, w'))
       ∧ (∀ (handler : gmap string value → M Σ ToolCallResult) e w1,
            handlers' !! toolName' = Some handler →
            handler (default ∅ arguments') w0 = (Throw e, w1) →
            call_tool handlers' toolName' arguments' w0
            = (Return (Envelope [TextContent (dispatch_error_text e)] true), w1))).
Proof.
  intros Hnone. split.
  - exists ("Error: Unknown tool: " +:+ toolName). split; [|split].
    + unfold call_tool, try_catch. now rewrite Hnone.
    + reflexivity.
    + apply (occurs_at_end "Error: Unknown tool: ").
  - intros handlers' toolName' arguments' w0. split.
    + apply call_tool_returns.
    + intros handler e w1. apply call_tool_catches.
Qed.

(** The handler map of [configureServer] has exactly the eleven tool names
    as keys. *)
Lemma toolHandlers_registered (serve : request → Σ → http_result * Σ)
    handleAxiosError other_execute toolName :
  toolHandlers serve handleAxiosError other_execute !! toolName = None
  ↔ toolName ∉ tool_names.
Proof.
  unfold toolHandlers, tool_names.
  rewrite !lookup_insert_None, lookup_empty, !not_elem_of_cons.
  split.
  - intros H. repeat split; try (intros ->; intuition congruence).
    apply not_elem_of_nil.
  - intros H. intuition congruence.
Qed.

End DispatcherProperties.

(** ** The update handler *)
Section HandlerProperties.

Context {Σ : Type}.
Variable serve : request → Σ → http_result * Σ.
Variable handleAxiosError : exn → string → exn.
Implicit Types w : world Σ.
Implicit Types args : gmap string value.

#[local] Abbreviation execute := (UpdateWorkflowHandler.execute serve handleAxiosError).
#[local] Abbreviation update_operation := (update_operation serve handleAxiosError).
#[local] Abbreviation apply_update := (apply_update serve handleAxiosError).

Lemma execute_falsy_name args w :
  truthy (prop args "name") = false →
  execute args w
  = (Return (Envelope [TextContent "Missing required parameter: name"] true), w).
Proof.
  intros H. unfold UpdateWorkflowHandler.execute, handleExecution, try_catch,
    UpdateWorkflowHandler.update_operation.
  now rewrite H.
Qed.

(** C5: without [name] the handler returns the error envelope
    "Missing required parameter: name" and leaves the world as it was:
    no request is sent. *)
Theorem update_without_name args w :
  args !! "name" = None →
  execute args w
  = (Return (Envelope [TextContent "Missing required parameter: name"] true), w)
  ∧ sent (snd (execute args w)) = sent w.
Proof.
  intros H. assert (Hf : truthy (prop args "name") = false).
  { unfold prop. now rewrite H. }
  rewrite (execute_falsy_name _ _ Hf). now split.
Qed.

(** C10: an empty-string [name] is treated as an absent one: same error
    envelope, no request sent. *)
Theorem update_with_empty_name args w :
  args !! "name" = Some (JStr EmptyString) →
  execute args w
  = (Return (Envelope [TextContent "Missing required parameter: name"] true), w)
  ∧ sent (snd (execute args w)) = sent w.
Proof.
  intros H. assert (Hf : truthy (prop args "name") = false).
  { unfold prop. now rewrite H. }
  rewrite (execute_falsy_name _ _ Hf). now split.
Qed.

Lemma execute_invalid_nodes args w :
  truthy (prop args "name") = true →
  invalid_nodes (prop args "nodes") = true →
  execute args w = (Return (formatError (message_of nodes_not_array)), w).
Proof.
  intros Hn Hi. unfold UpdateWorkflowHandler.execute, handleExecution, try_catch,
    UpdateWorkflowHandler.update_operation.
  now rewrite Hn, Hi.
Qed.

Lemma execute_invalid_connections args w :
  truthy (prop args "name") = true →
  invalid_nodes (prop args "nodes") = false →
  invalid_connections (prop args "connections") = true →
  execute args w = (Return (formatError (message_of connections_not_object)), w).
Proof.
  intros Hn Hi Hc. unfold UpdateWorkflowHandler.execute, handleExecution, try_catch,
    UpdateWorkflowHandler.update_operation.
  now rewrite Hn, Hi, Hc.
Qed.

(** *** Lookup by name *)

Lemma has_name_ok name x w :
  nullish x = false →
  has_name name x w = (Return (strict_eq (member x "name") name), w).
Proof.
  intros Hx. unfold has_name.
  now rewrite (bind_return _ _ _ _ _ (get_ok _ _ _ Hx)).
Qed.

Lemma find_loop_none name ws w :
  Forall (no_match name) ws →
  find_loop (has_name name) ws w = (Return JUndefined, w).
Proof.
  induction 1 as [|x ws [Hx Hne] _ IH]; [reflexivity|].
  simpl. rewrite (bind_return _ _ _ _ _ (has_name_ok _ _ _ Hx)), Hne. exact IH.
Qed.

Lemma find_loop_first name ws old w :
  first_match name ws old →
  find_loop (has_name name) ws w = (Return old, w).
Proof.
  intros (pre & post & -> & Hpre & Hold & Heq).
  induction Hpre as [|x pre [Hx Hne] _ IH]; simpl.
  - now rewrite (bind_return _ _ _ _ _ (has_name_ok _ _ _ Hold)), Heq.
  - now rewrite (bind_return _ _ _ _ _ (has_name_ok _ _ _ Hx)), Hne.
Qed.

Lemma find_loop_inv name ws w old w' :
  find_loop (has_name name) ws w = (Return old, w') →
  truthy old = true →
  w' = w ∧ first_match name ws old.
Proof.
  intros Hfind Hold. induction ws as [|x ws IH]; simpl in Hfind.
  - injection Hfind as <- <-. discriminate.
  - destruct (nullish x) eqn:Hx.
    + unfold bind, has_name, bind, get in Hfind. rewrite Hx in Hfind. discriminate.
    + rewrite (bind_return _ _ _ _ _ (has_name_ok _ _ _ Hx)) in Hfind.
      destruct (strict_eq (member x "name") name) eqn:Heq.
      * injection Hfind as <- <-. split; [reflexivity|].
        exists [], ws. repeat split; auto.
      * destruct (IH Hfind) as [-> (pre & post & -> & Hpre & Hn & He)].
        split; [reflexivity|]. exists (x :: pre), post.
        repeat split; auto. constructor; [now split | exact Hpre].
Qed.

(** *** The requests of one call *)

Lemma getWorkflows_inv w v w1 :
  getWorkflows serve handleAxiosError w = (Return v, w1) →
  ∃ body s,
    serve list_request (upstream w) = (Resolved body, s)
    ∧ nullish body = false
    ∧ v = or_else (member body "data") (JArr [])
    ∧ w1 = World s (sent w ++ [list_request]).
Proof.
  unfold getWorkflows, try_catch, bind, axios_get, axios, get, throw, ret, list_request.
  destruct (serve _ (upstream w)) as [[body|e] s] eqn:Hs; [|discriminate].
  destruct (nullish body) eqn:Hn; [discriminate|].
  intros [= <- <-]. eauto 10.
Qed.

Lemma updateWorkflow_inv id data w updated w2 :
  updateWorkflow serve handleAxiosError id data w = (Return updated, w2) →
  ∃ current s1 s2,
    serve (fetch_request id) (upstream w) = (Resolved current, s1)
    ∧ nullish current = false
    ∧ serve (put_request id (JObj (merged data current))) s1 = (Resolved updated, s2)
    ∧ w2 = World s2 (sent w ++ [fetch_request id; put_request id (JObj (merged data current))]).
Proof.
  intros H. unfold fetch_request, put_request.
  destruct (serve (Request GET ("/workflows/" +:+ to_string id) None) (upstream w))
    as [[current|e] s1] eqn:Hs.
  - destruct (nullish current) eqn:Hn.
    + destruct (updateWorkflow_nullish serve handleAxiosError id data w _ _ Hs Hn)
        as [e He].
      rewrite He in H. discriminate.
    + rewrite (updateWorkflow_resolved serve handleAxiosError id data w _ _ Hs Hn) in H.
      unfold try_catch, axios_put, axios, throw in H. simpl in H.
      destruct (serve _ s1) as [[u|e] s2] eqn:Hp; [|discriminate].
      injection H as <- <-. exists current, s1, s2.
      repeat split; auto. now rewrite <- app_assoc.
  - destruct (updateWorkflow_rejected serve handleAxiosError id data w _ _ Hs)
      as [e' He].
    rewrite He in H. discriminate.
Qed.

Lemma updateWorkflow_first_request id data w :
  ∃ rest,
    sent (snd (updateWorkflow serve handleAxiosError id data w))
    = sent w ++ fetch_request id :: rest.
Proof.
  unfold fetch_request.
  destruct (serve (Request GET ("/workflows/" +:+ to_string id) None) (upstream w))
    as [[current|e] s1] eqn:Hs.
  - destruct (nullish current) eqn:Hn.
    + destruct (updateWorkflow_nullish serve handleAxiosError id data w _ _ Hs Hn)
        as [e He].
      exists []. now rewrite He.
    + eexists.
      rewrite (updateWorkflow_resolved serve handleAxiosError id data w _ _ Hs Hn), put_sent.
      simpl. now rewrite <- app_assoc.
  - destruct (updateWorkflow_rejected serve handleAxiosError id data w _ _ Hs)
      as [e' He].
    exists []. now rewrite He.
Qed.

Lemma getWorkflows_resolved w body s :
  serve list_request (upstream w) = (Resolved body, s) →
  nullish body = false →
  getWorkflows serve handleAxiosError w
  = (Return (or_else (member body "data") (JArr [])),
     World s (sent w ++ [list_request])).
Proof. intros Hs Hb. exact (list_method_resolved _ _ _ _ _ _ _ Hs Hb). Qed.

Lemma first_match_truthy name ws old :
  truthy name = true → first_match name ws old → truthy old = true.
Proof.
  intros Hname (pre & post & _ & _ & Hn & Heq).
  destruct old as [| |[|]|n|s|l|o]; try reflexivity; try discriminate.
  - destruct name; discriminate.
  - simpl. destruct (n =? 0)%Z; [|reflexivity]. destruct name; discriminate.
  - destruct s as [|c s]; [|reflexivity]. destruct name; discriminate.
Qed.

Lemma apply_update_resolved args old w current s1 updated s2 :
  serve (fetch_request (member old "id")) (upstream w) = (Resolved current, s1) →
  nullish current = false →
  serve (put_request (member old "id") (update_body args old current)) s1
  = (Resolved updated, s2) →
  nullish updated = false →
  apply_update args old w
  = (Return (success_envelope args old updated),
     World s2 (sent w ++ [fetch_request (member old "id");
                          put_request (member old "id") (update_body args old current)])).
Proof.
  intros Hf Hc Hp Hu. unfold UpdateWorkflowHandler.apply_update.
  assert (Hup : updateWorkflow serve handleAxiosError (member old "id")
                  (workflowData args old) w
                = (Return updated,
                   World s2 (sent w ++ [fetch_request (member old "id");
                     put_request (member old "id") (update_body args old current)]))).
  { rewrite (updateWorkflow_resolved serve handleAxiosError _ _ w _ _ Hf Hc).
    apply catch_return. unfold axios_put.
    rewrite (axios_resolved serve _ (World s1 _) _ _ Hp). simpl.
    now rewrite <- app_assoc. }
  rewrite (bind_return _ _ _ _ _ Hup).
  repeat rewrite (bind_return _ _ _ _ _ (get_ok _ _ _ Hu)). reflexivity.
Qed.

Lemma apply_update_sent args old w :
  snd (apply_update args old w)
  = snd (updateWorkflow serve handleAxiosError (member old "id")
           (workflowData args old) w).
Proof.
  unfold UpdateWorkflowHandler.apply_update, bind at 1.
  destruct (updateWorkflow _ _ _ _ w) as [[u|e] w1]; [|reflexivity].
  unfold bind, get, throw, ret. destruct (nullish u); reflexivity.
Qed.

Lemma handleExecution_sent handler args w :
  snd (handleExecution (Σ := Σ) handler args w) = snd (handler args w).
Proof.
  unfold handleExecution, try_catch. destruct (handler args w) as [[r|e] w1]; reflexivity.
Qed.

Lemma update_operation_listed args w body s ws :
  truthy (prop args "name") = true →
  invalid_nodes (prop args "nodes") = false →
  invalid_connections (prop args "connections") = false →
  serve list_request (upstream w) = (Resolved body, s) →
  nullish body = false →
  member body "data" = JArr ws →
  update_operation args w
  = (let* workflow := find_loop (has_name (prop args "name")) ws in
     if negb (truthy workflow) then throw (not_found (prop args "name"))
     else apply_update args workflow)
      (World s (sent w ++ [list_request])).
Proof.
  intros Hname Hnodes Hconn Hs Hb Hdata. unfold UpdateWorkflowHandler.update_operation.
  rewrite Hname, Hnodes, Hconn. cbn [negb].
  rewrite (bind_return _ _ _ _ _ (getWorkflows_resolved _ _ _ Hs Hb)).
  rewrite Hdata. reflexivity.
Qed.

Lemma update_operation_found args w body s ws old :
  truthy (prop args "name") = true →
  invalid_nodes (prop args "nodes") = false →
  invalid_connections (prop args "connections") = false →
  serve list_request (upstream w) = (Resolved body, s) →
  nullish body = false →
  member body "data" = JArr ws →
  first_match (prop args "name") ws old →
  update_operation args w = apply_update args old (World s (sent w ++ [list_request])).
Proof.
  intros Hname Hnodes Hconn Hs Hb Hdata Hold.
  rewrite (update_operation_listed _ _ _ _ _ Hname Hnodes Hconn Hs Hb Hdata).
  rewrite (bind_return _ _ _ _ _ (find_loop_first _ _ _ _ Hold)).
  now rewrite (first_match_truthy _ _ _ Hname Hold).
Qed.

Lemma update_operation_not_found args w body s ws :
  truthy (prop args "name") = true →
  invalid_nodes (prop args "nodes") = false →
  invalid_connections (prop args "connections") = false →
  serve list_request (upstream w) = (Resolved body, s) →
  nullish body = false →
  member body "data" = JArr ws →
  Forall (no_match (prop args "name")) ws →
  update_operation args w
  = (Throw (not_found (prop args "name")), World s (sent w ++ [list_request])).
Proof.
  intros Hname Hnodes Hconn Hs Hb Hdata Hnone.
  rewrite (update_operation_listed _ _ _ _ _ Hname Hnodes Hconn Hs Hb Hdata).
  now rewrite (bind_return _ _ _ _ _ (find_loop_none _ _ _ Hnone)).
Qed.

(** C7, as amended: for a call with a truthy [name] that passes the checks
    on [nodes] and [connections], whose list request is answered with a
    list, the handler continues with the first entry whose name is
    strictly equal to [name], fetching that entry's id next; when no entry
    of the list has that name the call returns the error envelope
    "Workflow with name ... not found", and the list request is the only
    request that was sent. *)
Theorem update_selects_first_by_name args w body s ws :
  truthy (prop args "name") = true →
  invalid_nodes (prop args "nodes") = false →
  invalid_connections (prop args "connections") = false →
  serve list_request (upstream w) = (Resolved body, s) →
  nullish body = false →
  member body "data" = JArr ws →
  (∀ old, first_match (prop args "name") ws old →
     execute args w
     = handleExecution (λ a, apply_update a old) args
         (World s (sent w ++ [list_request]))
     ∧ ∃ rest,
         sent (snd (execute args w))
         = sent w ++ list_request :: fetch_request (member old "id") :: rest)
  ∧ (Forall (no_match (prop args "name")) ws →
     execute args w
     = (Return
          (Envelope
             [TextContent ("Workflow with name " +:+ dquote
                           +:+ to_string (prop args "name") +:+ dquote
                           +:+ " not found")]
             true),
        World s (sent w ++ [list_request]))).
Proof.
  intros Hname Hnodes Hconn Hs Hb Hdata. split.
  - intros old Hold.
    pose proof (update_operation_found _ _ _ _ _ _ Hname Hnodes Hconn Hs Hb Hdata Hold)
      as Hop.
    split.
    + unfold UpdateWorkflowHandler.execute, handleExecution, try_catch. now rewrite Hop.
    + unfold UpdateWorkflowHandler.execute. rewrite handleExecution_sent, Hop.
      rewrite apply_update_sent.
      destruct (updateWorkflow_first_request (member old "id")
                  (workflowData args old) (World s (sent w ++ [list_request])))
        as [rest Hrest].
      exists rest. rewrite Hrest. simpl. now rewrite <- app_assoc.
  - intros Hnone.
    unfold UpdateWorkflowHandler.execute, handleExecution, try_catch.
    now rewrite (update_operation_not_found _ _ _ _ _ Hname Hnodes Hconn Hs Hb Hdata Hnone).
Qed.

(** *** A complete successful call *)

Lemma execute_resolved args w body s ws old current s1 updated s2 :
  truthy (prop args "name") = true →
  invalid_nodes (prop args "nodes") = false →
  invalid_connections (prop args "connections") = false →
  serve list_request (upstream w) = (Resolved body, s) →
  nullish body = false →
  member body "data" = JArr ws →
  first_match (prop args "name") ws old →
  serve (fetch_request (member old "id")) s = (Resolved current, s1) →
  nullish current = false →
  serve (put_request (member old "id") (update_body args old current)) s1
  = (Resolved updated, s2) →
  nullish updated = false →
  execute args w
  = (Return (success_envelope args old updated),
     World s2 (sent w ++ [list_request; fetch_request (member old "id");
                          put_request (member old "id") (update_body args old current)])).
Proof.
  intros Hname Hnodes Hconn Hs Hb Hdata Hold Hf Hc Hp Hu.
  unfold UpdateWorkflowHandler.execute, handleExecution. apply catch_return.
  rewrite (update_operation_found _ _ _ _ _ _ Hname Hnodes Hconn Hs Hb Hdata Hold).
  rewrite (apply_update_resolved args old (World s _) _ _ _ _ Hf Hc Hp Hu).
  simpl. now rewrite <- app_assoc.
Qed.

Lemma apply_update_inv args old w r w' :
  apply_update args old w = (Return r, w') →
  ∃ current s1 updated s2,
    serve (fetch_request (member old "id")) (upstream w) = (Resolved current, s1)
    ∧ nullish current = false
    ∧ serve (put_request (member old "id") (update_body args old current)) s1
      = (Resolved updated, s2)
    ∧ nullish updated = false
    ∧ r = success_envelope args old updated.
Proof.
  intros H. unfold UpdateWorkflowHandler.apply_update in H.
  apply bind_inv in H as (updated & w2 & Hup & H).
  apply updateWorkflow_inv in Hup as (current & s1 & s2 & Hf & Hc & Hp & ->).
  exists current, s1, updated, s2.
  destruct (nullish updated) eqn:Hu.
  - unfold bind, get in H. rewrite Hu in H. discriminate.
  - repeat rewrite (bind_return _ _ _ _ _ (get_ok _ _ _ Hu)) in H.
    injection H as <- _. repeat split; auto.
Qed.

Lemma execute_success_inv args w r w' :
  execute args w = (Return r, w') →
  isError r = false →
  ∃ body s ws old current s1 updated s2,
    serve list_request (upstream w) = (Resolved body, s)
    ∧ member body "data" = JArr ws
    ∧ first_match (prop args "name") ws old
    ∧ serve (fetch_request (member old "id")) s = (Resolved current, s1)
    ∧ serve (put_request (member old "id") (update_body args old current)) s1
      = (Resolved updated, s2)
    ∧ r = success_envelope args old updated.
Proof.
  intros H Hok. unfold UpdateWorkflowHandler.execute, handleExecution, try_catch in H.
  destruct (UpdateWorkflowHandler.update_operation serve handleAxiosError args w)
    as [[r0|e] w0] eqn:Hop.
  2:{ injection H as <- _. discriminate. }
  injection H as -> ->. unfold UpdateWorkflowHandler.update_operation in Hop.
  destruct (truthy (prop args "name")) eqn:Hname; [|discriminate].
  destruct (invalid_nodes _); [discriminate|].
  destruct (invalid_connections _); [discriminate|]. cbn [negb] in Hop.
  apply bind_inv in Hop as (v & w1 & Hg & Hop).
  apply getWorkflows_inv in Hg as (body & s & Hs & Hb & -> & ->).
  apply bind_inv in Hop as (old & w2 & Hfind & Hop).
  destruct (truthy old) eqn:Hold; [|discriminate]. cbn [negb] in Hop.
  unfold array_find in Hfind.
  destruct (or_else (member body "data") (JArr [])) as [| | | | |ws|] eqn:Hv;
    try discriminate.
  apply find_loop_inv in Hfind as [-> Hfirst]; [|exact Hold].
  apply apply_update_inv in Hop as (current & s1 & updated & s2 & Hf & _ & Hp & _ & ->).
  exists body, s, ws, old, current, s1, updated, s2. repeat split; auto.
  unfold or_else in Hv. destruct (truthy (member body "data")); [exact Hv|].
  injection Hv as <-. destruct Hfirst as (pre & post & Hws & _).
  now destruct pre.
Qed.

(** *** The summary of changes *)

Lemma elem_of_if_singleton (b : bool) (x c : string) :
  c ∈ (if b then [x] else []) ↔ c = x ∧ b = true.
Proof.
  destruct b.
  - rewrite list_elem_of_singleton. tauto.
  - split; [intros H; now apply elem_of_nil in H | intros [_ H]; discriminate].
Qed.

Lemma changesArray_listed args old c :
  c ∈ changesArray args old ↔ listed args old c.
Proof.
  unfold changesArray, listed.
  rewrite !elem_of_app, !elem_of_if_singleton, !andb_true_iff, !negb_true_iff,
    !defined_spec.
  tauto.
Qed.

Lemma changesSummary_cases changes :
  changesSummary changes
  = match changes with
    | [] => "No changes were made"
    | _ :: _ => "Changes: " +:+ join ", " changes
    end.
Proof. now destruct changes. Qed.

Lemma workflowData_active args old :
  defined (prop args "active") = true →
  prop (workflowData args old) "active" = prop args "active".
Proof.
  intros H. unfold workflowData, assign_if_defined at 1 2. rewrite H.
  destruct (defined (prop args "tags")); unfold prop at 1.
  - rewrite lookup_insert_ne by discriminate. now rewrite lookup_insert_eq.
  - now rewrite lookup_insert_eq.
Qed.

Lemma update_body_active args old current :
  defined (prop args "active") = true →
  member (update_body args old current) "active" = prop args "active".
Proof.
  intros H. unfold update_body, member, prop at 1.
  assert (Hl : merged (workflowData args old) current !! "active"
               = Some (prop args "active")).
  { unfold merged. repeat (rewrite lookup_insert_ne by discriminate).
    rewrite lookup_insert_eq. now rewrite (workflowData_active _ _ H), H. }
  now rewrite Hl.
Qed.

(** C2, as amended: the summary of a successful call lists [name] when
    [newName] was supplied and is not strictly equal to the old name,
    [active] when it was supplied and is not strictly equal to the old
    flag, and [nodes], [connections] and [tags] whenever they were
    supplied, whether or not their value differs; it reads
    "No changes were made" when it lists nothing.  The payload carries the
    id, name and active flag of the PUT's response.  With a stored
    workflow "Test" that is inactive, [{name: "Test", active: true}]
    gives a summary containing "active: false → true", and a payload whose
    [active] is [true] when the upstream answers the PUT with the object
    it was sent. *)
Theorem update_summary_lists_supplied_changes :
  (∀ args w r w',
     execute args w = (Return r, w') →
     isError r = false →
     ∃ body s ws old current s1 updated s2 changes,
       serve list_request (upstream w) = (Resolved body, s)
       ∧ member body "data" = JArr ws
       ∧ first_match (prop args "name") ws old
       ∧ serve (put_request (member old "id") (update_body args old current)) s1
         = (Resolved updated, s2)
       ∧ summary r
         = Some ("Workflow updated successfully. "
                 +:+ match changes with
                     | [] => "No changes were made"
                     | _ :: _ => "Changes: " +:+ join ", " changes
                     end)
       ∧ (∀ c, c ∈ changes ↔ listed args old c)
       ∧ payload r
         = Some (JObj (<["id" := member updated "id"]>
                      (<["name" := member updated "name"]>
                      (<["active" := member updated "active"]> ∅)))))
  ∧ (∀ w body s ws old current s1 s2,
       serve list_request (upstream w) = (Resolved body, s) →
       nullish body = false →
       member body "data" = JArr ws →
       first_match (JStr "Test") ws old →
       member old "active" = JBool false →
       serve (fetch_request (member old "id")) s = (Resolved current, s1) →
       nullish current = false →
       serve (put_request (member old "id") (update_body activate_Test old current)) s1
       = (Resolved (update_body activate_Test old current), s2) →
       ∃ r w' data,
         execute activate_Test w = (Return r, w')
         ∧ isError r = false
         ∧ summary r
           = Some "Workflow updated successfully. Changes: active: false → true"
         ∧ occurs_in "active: false → true"
             "Workflow updated successfully. Changes: active: false → true"
         ∧ payload r = Some (JObj data)
         ∧ data !! "active" = Some (JBool true)).
Proof.
  split.
  - intros args w r w' Hrun Hok.
    destruct (execute_success_inv _ _ _ _ Hrun Hok)
      as (body & s & ws & old & current & s1 & updated & s2
          & Hs & Hdata & Hfirst & Hf & Hp & ->).
    exists body, s, ws, old, current, s1, updated, s2, (changesArray args old).
    repeat split; auto.
    + unfold summary, success_envelope. simpl. now rewrite changesSummary_cases.
    + apply changesArray_listed.
    + apply changesArray_listed.
  - intros w body s ws old current s1 s2 Hs Hb Hdata Hfirst Hactive Hf Hc Hp.
    eexists _, _, _. split; [|split; [|split; [|split; [|split]]]].
    + apply (execute_resolved activate_Test w body s ws old current s1
               (update_body activate_Test old current) s2);
        auto; reflexivity.
    + reflexivity.
    + unfold summary, success_envelope, changesArray, active_change. simpl content.
      rewrite Hactive. reflexivity.
    + apply (occurs_at_end "Workflow updated successfully. Changes: ").
    + reflexivity.
    + rewrite lookup_insert_ne by discriminate.
      rewrite lookup_insert_ne by discriminate.
      rewrite lookup_insert_eq. f_equal.
      now rewrite update_body_active.
Qed.

(** C6, as amended: with a stored workflow named "Test", the arguments
    [{name: "Test"}] give a success envelope whose summary is exactly
    "Workflow updated successfully. No changes were made"; the part that
    describes the changes is exactly "No changes were made". *)
Theorem update_with_name_only_reports_no_changes w body s ws old current s1 updated s2 :
  serve list_request (upstream w) = (Resolved body, s) →
  nullish body = false →
  member body "data" = JArr ws →
  first_match (JStr "Test") ws old →
  serve (fetch_request (member old "id")) s = (Resolved current, s1) →
  nullish current = false →
  serve (put_request (member old "id") (update_body only_name_Test old current)) s1
  = (Resolved updated, s2) →
  nullish updated = false →
  ∃ r w',
    execute only_name_Test w = (Return r, w')
    ∧ isError r = false
    ∧ summary r = Some "Workflow updated successfully. No changes were made"
    ∧ changesSummary (changesArray only_name_Test old) = "No changes were made".
Proof.
  intros Hs Hb Hdata Hfirst Hf Hc Hp Hu. eexists _, _. split; [|split; [|split]].
  - apply (execute_resolved only_name_Test w body s ws old current s1 updated s2);
      auto; reflexivity.
  - reflexivity.
  - reflexivity.
  - reflexivity.
Qed.

End HandlerProperties.

(** ** Scenarios on the reference upstream *)

Lemma reference_lists :
  Reference.serve list_request (upstream Reference.initial)
  = (Resolved (JObj {["data" := JArr [Reference.other_workflow; Reference.test_workflow]]}),
     [Reference.other_workflow; Reference.test_workflow]).
Proof. reflexivity. Qed.

Lemma reference_first_match :
  first_match (JStr "Test") [Reference.other_workflow; Reference.test_workflow]
    Reference.test_workflow.
Proof.
  exists [Reference.other_workflow], []. repeat split.
  repeat constructor.
Qed.

Lemma reference_fetch :
  Reference.serve (fetch_request (member Reference.test_workflow "id"))
    [Reference.other_workflow; Reference.test_workflow]
  = (Resolved Reference.test_workflow,
     [Reference.other_workflow; Reference.test_workflow]).
Proof. vm_compute. reflexivity. Qed.

Lemma reference_put body :
  Reference.serve (put_request (member Reference.test_workflow "id") body)
    [Reference.other_workflow; Reference.test_workflow]
  = (Resolved body, [Reference.other_workflow; body]).
Proof. reflexivity. Qed.

Lemma call_tool_unknown_tool_witness :
  call_tool
    (toolHandlers Reference.serve Reference.handleAxiosError Reference.other_execute)
    "drop_everything" None Reference.initial
  = (Return (Envelope [TextContent "Error: Unknown tool: drop_everything"] true),
     Reference.initial).
Proof.
  destruct (call_tool_unknown_tool
              (toolHandlers Reference.serve Reference.handleAxiosError
                 Reference.other_execute)
              "drop_everything" None Reference.initial eq_refl)
    as [(text & Hrun & -> & _) _].
  exact Hrun.
Defined.

Lemma update_without_name_witness :
  Reference.execute {["active" := JBool true]} Reference.initial
  = (Return (Envelope [TextContent "Missing required parameter: name"] true),
     Reference.initial).
Proof.
  exact (proj1 (update_without_name Reference.serve Reference.handleAxiosError
                  {["active" := JBool true]} Reference.initial eq_refl)).
Defined.

Lemma update_with_empty_name_witness :
  Reference.execute (<["name" := JStr EmptyString]> {["active" := JBool true]})
    Reference.initial
  = (Return (Envelope [TextContent "Missing required parameter: name"] true),
     Reference.initial).
Proof.
  exact (proj1 (update_with_empty_name Reference.serve Reference.handleAxiosError
                  (<["name" := JStr EmptyString]> {["active" := JBool true]})
                  Reference.initial eq_refl)).
Defined.

Lemma updateWorkflow_read_modify_write_witness :
  ∃ sentObject,
    sent (snd (updateWorkflow Reference.serve Reference.handleAxiosError
                 (JStr "wf1") {["active" := JBool true]} Reference.initial))
    = [Request GET "/workflows/wf1" None;
       Request PUT "/workflows/wf1" (Some (JObj sentObject))]
    ∧ sentObject !! "active" = Some (JBool true)
    ∧ sentObject !! "name" = Some (JStr "Test")
    ∧ sentObject !! "id" = Some (JStr "wf1").
Proof.
  destruct (updateWorkflow_read_modify_write Reference.serve Reference.handleAxiosError
              (JStr "wf1") {["active" := JBool true]} Reference.initial)
    as (rest & Hsent & Hrest).
  assert (Hs : Reference.serve (Request GET ("/workflows/" +:+ to_string (JStr "wf1")) None)
                 (upstream Reference.initial)
               = (Resolved Reference.test_workflow, upstream Reference.initial))
    by (vm_compute; reflexivity).
  rewrite Hs in Hrest.
  destruct Hrest as (sentObject & settings & -> & Hfields & _ & _ & Hother).
  exists sentObject. split; [exact Hsent|]. split; [|split].
  - rewrite (Hfields "active") by set_solver. reflexivity.
  - rewrite (Hfields "name") by set_solver. vm_compute. reflexivity.
  - rewrite (Hother "id"); [vm_compute; reflexivity | | discriminate].
    unfold caller_fields. intros Hin.
    repeat (apply elem_of_cons in Hin as [Hin|Hin]; [discriminate|]).
    now apply elem_of_nil in Hin.
Defined.

Lemma createWorkflow_fills_defaults_witness :
  (∃ body settings,
     sent (snd (createWorkflow Reference.serve Reference.handleAxiosError
                  Reference.new_workflow Reference.initial))
     = [Request POST "/workflows" (Some (JObj body))]
     ∧ body !! "name" = Some (JStr "New")
     ∧ body !! "nodes" = Some (JArr [JObj {["name" := JStr "Start"]}])
     ∧ body !! "connections" = Some (JObj ∅)
     ∧ body !! "tags" = Some (JArr [])
     ∧ body !! "active" = Some (JBool true)
     ∧ body !! "settings" = Some (JObj settings)
     ∧ settings !! "timezone" = Some (JStr "CET")
     ∧ settings !! "callerPolicy" = Some (JStr "any")
     ∧ settings !! "saveExecutionProgress" = Some (JBool true)
     ∧ settings !! "executionTimeout" = Some (JNum 3600))
  ∧ (∃ body settings,
       sent (snd (createWorkflow Reference.serve Reference.handleAxiosError
                    {["name" := JStr "New"]} Reference.initial))
       = [Request POST "/workflows" (Some (JObj body))]
       ∧ body !! "settings" = Some (JObj settings)
       ∧ body !! "nodes" = Some (JArr [])
       ∧ body !! "connections" = Some (JObj ∅)
       ∧ body !! "tags" = Some (JArr [])
       ∧ settings !! "saveExecutionProgress" = Some (JBool true)
       ∧ settings !! "timezone" = Some (JStr "UTC")).
Proof.
  split.
  - destruct (createWorkflow_fills_defaults Reference.serve Reference.handleAxiosError
                Reference.new_workflow Reference.initial)
      as (body & settings & Hsent & Hname & Hnodes & Hconn & Htags & Hact & Hset
          & Hkeys & _ & _ & Hconn' & Htags' & _).
    exists body, settings.
    split; [exact Hsent|]. split; [exact Hname|]. split; [exact Hnodes|].
    split; [exact (Hconn' eq_refl)|]. split; [exact (Htags' eq_refl)|].
    split; [exact Hact|]. split; [exact Hset|].
    split; [exact (Hkeys "timezone")|]. split; [exact (Hkeys "callerPolicy")|].
    split; [exact (Hkeys "saveExecutionProgress") | exact (Hkeys "executionTimeout")].
  - destruct (createWorkflow_fills_defaults Reference.serve Reference.handleAxiosError
                {["name" := JStr "New"]} Reference.initial)
      as (body & settings & Hsent & _ & _ & _ & _ & _ & Hset & _ & _
          & Hnodes & Hconn & Htags & Hdef).
    exists body, settings.
    destruct (Hdef eq_refl) as (_ & Hprogress & Hzone).
    split; [exact Hsent|]. split; [exact Hset|].
    split; [exact (Hnodes eq_refl)|]. split; [exact (Hconn eq_refl)|].
    split; [exact (Htags eq_refl)|]. split; [exact Hprogress | exact Hzone].
Defined.

Lemma list_methods_default_to_empty_witness :
  getWorkflows (Reference.constant (JObj ∅)) Reference.handleAxiosError (World tt [])
  = (Return (JArr []), World tt [Request GET "/workflows" None])
  ∧ getExecutions (Reference.constant (JObj ∅)) Reference.handleAxiosError (World tt [])
    = (Return (JArr []), World tt [Request GET "/executions" None])
  ∧ getWorkflows Reference.serve Reference.handleAxiosError Reference.initial
    = (Return (JArr [Reference.other_workflow; Reference.test_workflow]),
       World [Reference.other_workflow; Reference.test_workflow]
         [Request GET "/workflows" None]).
Proof.
  destruct (list_methods_default_to_empty (Reference.constant (JObj ∅))
              Reference.handleAxiosError (World tt []) (JObj ∅) tt eq_refl)
    as [Hfalsy _].
  destruct (Hfalsy eq_refl) as [Hw He].
  destruct (list_methods_default_to_empty Reference.serve
              Reference.handleAxiosError Reference.initial
              (JObj {["data" := JArr [Reference.other_workflow; Reference.test_workflow]]})
              [Reference.other_workflow; Reference.test_workflow] eq_refl)
    as [_ Hlist].
  destruct (Hlist _ eq_refl) as [Hw' _].
  split; [exact (Hw eq_refl) | split; [exact (He eq_refl) | exact (Hw' reference_lists)]].
Defined.

(** C9: the list methods are to return a list in every case, the empty
    one when the [data] field yields none.  At the answer
    [{data: "oops"}] they do not: [getWorkflows] returns the string
    ["oops"] and [getExecutions] returns something other than the empty
    sequence, since [|| []] replaces falsy values only. *)
Lemma getWorkflows_returns_non_list :
  isArray (member (JObj {["data" := JStr "oops"]}) "data") = false
  ∧ fst (getWorkflows (Reference.constant (JObj {["data" := JStr "oops"]}))
           Reference.handleAxiosError (World tt []))
    = Return (JStr "oops")
  ∧ fst (getExecutions (Reference.constant (JObj {["data" := JStr "oops"]}))
           Reference.handleAxiosError (World tt []))
    ≠ Return (JArr []).
Proof. repeat split. discriminate. Qed.

Lemma reference_no_match_Nope :
  Forall (no_match (JStr "Nope")) [Reference.other_workflow; Reference.test_workflow].
Proof. repeat constructor. Qed.

Lemma update_selects_first_by_name_witness :
  (∃ rest,
     sent (snd (Reference.execute only_name_Test Reference.initial))
     = Request GET "/workflows" None :: Request GET "/workflows/wf1" None :: rest)
  ∧ Reference.execute only_name_Nope Reference.initial
    = (Return (Envelope [TextContent ("Workflow with name " +:+ dquote +:+ "Nope"
                                      +:+ dquote +:+ " not found")] true),
       World [Reference.other_workflow; Reference.test_workflow]
         [Request GET "/workflows" None]).
Proof.
  split.
  - destruct (update_selects_first_by_name Reference.serve Reference.handleAxiosError
                only_name_Test Reference.initial _ _ _
                eq_refl eq_refl eq_refl reference_lists eq_refl eq_refl)
      as [Hfound _].
    destruct (Hfound _ reference_first_match) as [_ [rest Hrest]].
    exists rest. exact Hrest.
  - destruct (update_selects_first_by_name Reference.serve Reference.handleAxiosError
                only_name_Nope Reference.initial _ _ _
                eq_refl eq_refl eq_refl reference_lists eq_refl eq_refl)
      as [_ Hnone].
    exact (Hnone reference_no_match_Nope).
Defined.

(** C7, as stated, fails.  A call with a non-empty [name] whose [nodes] is
    not an array is turned down before the workflows are listed: it sends
    no request and does not report "not found".  And a [null] entry in
    the list stops the lookup: with the list [[null]] no entry has the
    name, yet the answer is not "not found"; with [[null, Test]] the first
    entry named "Test" is not selected and nothing is fetched. *)
Lemma lookup_by_name_fails_as_stated :
  (truthy (prop (<["name" := JStr "Nope"]> {["nodes" := JStr "abc"]}) "name") = true
   ∧ Reference.execute (<["name" := JStr "Nope"]> {["nodes" := JStr "abc"]})
       Reference.initial
     = (Return (Envelope [TextContent ("Parameter " +:+ dquote +:+ "nodes" +:+ dquote
                                       +:+ " must be an array")] true),
        Reference.initial))
  ∧ ((∀ x, x ∈ [JNull] → strict_eq (member x "name") (JStr "Nope") = false)
     ∧ ∃ text,
         UpdateWorkflowHandler.execute Scripted.serve Reference.handleAxiosError
           only_name_Nope (World [Resolved (JObj {["data" := JArr [JNull]]})] [])
         = (Return (Envelope [TextContent text] true), World [] [list_request])
         ∧ text ≠ "Workflow with name " +:+ dquote +:+ "Nope" +:+ dquote
                  +:+ " not found")
  ∧ (strict_eq (member Reference.test_workflow "name") (JStr "Test") = true
     ∧ ∃ text,
         UpdateWorkflowHandler.execute Scripted.serve Reference.handleAxiosError
           only_name_Test
           (World [Resolved (JObj {["data" := JArr [JNull; Reference.test_workflow]]});
                   Resolved Reference.test_workflow;
                   Resolved Reference.test_workflow] [])
         = (Return (Envelope [TextContent text] true),
            World [Resolved Reference.test_workflow; Resolved Reference.test_workflow]
              [list_request])).
Proof.
  split; [|split].
  - split; reflexivity.
  - split.
    + intros x Hx. apply list_elem_of_singleton in Hx as ->. reflexivity.
    + eexists. split; [vm_compute; reflexivity|]. vm_compute. discriminate.
  - split; [reflexivity|]. eexists. vm_compute. reflexivity.
Qed.

Lemma update_summary_lists_supplied_changes_witness :
  ∃ r w' data (changes : list string),
    Reference.execute activate_Test Reference.initial = (Return r, w')
    ∧ isError r = false
    ∧ summary r = Some "Workflow updated successfully. Changes: active: false → true"
    ∧ payload r = Some (JObj data)
    ∧ data !! "active" = Some (JBool true)
    ∧ (∀ c, c ∈ changes ↔ listed activate_Test Reference.test_workflow c).
Proof.
  destruct (update_summary_lists_supplied_changes Reference.serve
              Reference.handleAxiosError) as [Hall Htest].
  destruct (Htest Reference.initial _ _ _ Reference.test_workflow
              Reference.test_workflow _ _
              reference_lists eq_refl eq_refl reference_first_match eq_refl
              reference_fetch eq_refl (reference_put _))
    as (r & w' & data & Hrun & Hok & Hsum & _ & Hpay & Hact).
  destruct (Hall _ _ _ _ Hrun Hok)
    as (body & s & ws & old & current & s1 & updated & s2 & changes
        & Hs & Hdata & Hfirst & _ & _ & Hlisted & _).
  exists r, w', data, (changesArray activate_Test Reference.test_workflow).
  split; [exact Hrun|]. split; [exact Hok|]. split; [exact Hsum|].
  split; [exact Hpay|]. split; [exact Hact|].
  apply changesArray_listed.
Defined.

(** C2, as stated, fails: a field that is supplied with the value the
    stored workflow already has is listed as a change, be it [nodes] with
    an equal array or [tags] with the very same [null]. *)
Lemma summary_lists_unchanged_fields :
  (prop (<["name" := JStr "Test"]> {["nodes" := JArr []]}) "nodes"
   = member Reference.test_workflow "nodes"
   ∧ ∃ r w',
       Reference.execute (<["name" := JStr "Test"]> {["nodes" := JArr []]})
         Reference.initial
       = (Return r, w')
       ∧ isError r = false
       ∧ summary r = Some "Workflow updated successfully. Changes: nodes updated"
       ∧ summary r ≠ Some "Workflow updated successfully. No changes were made")
  ∧ (strict_eq (prop (<["name" := JStr "Plain"]> {["tags" := JNull]}) "tags")
       (member Reference.untagged_workflow "tags") = true
     ∧ ∃ r w',
         Reference.execute (<["name" := JStr "Plain"]> {["tags" := JNull]})
           (World [Reference.untagged_workflow] [])
         = (Return r, w')
         ∧ isError r = false
         ∧ summary r = Some "Workflow updated successfully. Changes: tags updated").
Proof.
  split; (split; [reflexivity|]); eexists _, _;
    (split; [vm_compute; reflexivity|]); repeat split.
  discriminate.
Qed.

Lemma update_with_name_only_reports_no_changes_witness :
  ∃ r w',
    Reference.execute only_name_Test Reference.initial = (Return r, w')
    ∧ isError r = false
    ∧ summary r = Some "Workflow updated successfully. No changes were made".
Proof.
  destruct (update_with_name_only_reports_no_changes Reference.serve
              Reference.handleAxiosError Reference.initial _ _ _
              Reference.test_workflow Reference.test_workflow _ _ _
              reference_lists eq_refl eq_refl reference_first_match
              reference_fetch eq_refl (reference_put _) eq_refl)
    as (r & w' & Hrun & Hok & Hsum & _).
  exists r, w'. split; [exact Hrun|]. split; [exact Hok | exact Hsum].
Defined.

(** C6, as stated, fails: the summary text is not exactly
    "No changes were made"; it starts with "Workflow updated
    successfully. ". *)
Lemma name_only_summary_is_prefixed :
  ∃ r w',
    Reference.execute only_name_Test Reference.initial = (Return r, w')
    ∧ isError r = false
    ∧ summary r = Some "Workflow updated successfully. No changes were made"
    ∧ summary r ≠ Some "No changes were made".
Proof.
  eexists _, _. split; [vm_compute; reflexivity|]. repeat split. discriminate.
Qed.

(** C8: the checks on [nodes] and [connections] let through values that
    are not a sequence or a mapping.  With [connections] an array, or with
    [nodes] the number 0, the call is not turned down: it lists the
    workflows, fetches the one named "Test", sends the value upstream in
    the PUT and returns a success envelope. *)
Theorem update_validation_lets_through :
  (∃ r w' body,
     Reference.execute (<["name" := JStr "Test"]> {["connections" := JArr [JNum 1]]})
       Reference.initial
     = (Return r, w')
     ∧ isError r = false
     ∧ sent w' = [Request GET "/workflows" None;
                  Request GET "/workflows/wf1" None;
                  Request PUT "/workflows/wf1" (Some (JObj body))]
     ∧ body !! "connections" = Some (JArr [JNum 1]))
  ∧ (∃ r w' body,
       Reference.execute (<["name" := JStr "Test"]> {["nodes" := JNum 0]})
         Reference.initial
       = (Return r, w')
       ∧ isError r = false
       ∧ sent w' = [Request GET "/workflows" None;
                    Request GET "/workflows/wf1" None;
                    Request PUT "/workflows/wf1" (Some (JObj body))]
       ∧ body !! "nodes" = Some (JNum 0)).
Proof.
  split; eexists _, _, _;
    (split; [vm_compute; reflexivity|]);
    (split; [reflexivity|]); (split; [reflexivity|]); vm_compute; reflexivity.
Qed.

(** * Further properties *)

(** ** The gateway client: one request, failures surfaced *)
Section ClientRequests.

Context {Σ : Type}.
Variable serve : request → Σ → http_result * Σ.
Variable handleAxiosError : exn → string → exn.
Implicit Types w : world Σ.

Lemma guarded_request_sends_only r msg :
  sends_only serve handleAxiosError r msg
    (try_catch (axios serve r) (λ error, throw (handleAxiosError error msg))).
Proof.
  intros w. unfold try_catch, axios, throw.
  destruct (serve r (upstream w)) as [[d|e] s] eqn:Hs;
    (split; [reflexivity | split]); intros ? ? H; inversion H; reflexivity.
Qed.

(** X1: each of the six remaining client methods sends exactly one
    request, with its own method and URL, whether the call succeeds or
    fails; it returns the response body untouched and turns a refusal into
    a throw of the normalised error.  [executeWorkflow] always sends a
    body: the caller's data when truthy, the empty object otherwise. *)
Theorem client_methods_send_one_request id :
  sends_only serve handleAxiosError (Request GET ("/executions/" +:+ to_string id) None)
    ("Failed to fetch execution " +:+ to_string id)
    (getExecution serve handleAxiosError id)
  ∧ (∀ data,
       sends_only serve handleAxiosError
         (Request POST ("/workflows/" +:+ to_string id +:+ "/execute")
            (Some (if truthy data then data else JObj ∅)))
         ("Failed to execute workflow " +:+ to_string id)
         (executeWorkflow serve handleAxiosError id data))
  ∧ sends_only serve handleAxiosError (Request DELETE ("/workflows/" +:+ to_string id) None)
      ("Failed to delete workflow " +:+ to_string id)
      (deleteWorkflow serve handleAxiosError id)
  ∧ sends_only serve handleAxiosError (Request POST ("/workflows/" +:+ to_string id +:+ "/activate") None)
      ("Failed to activate workflow " +:+ to_string id)
      (activateWorkflow serve handleAxiosError id)
  ∧ sends_only serve handleAxiosError (Request POST ("/workflows/" +:+ to_string id +:+ "/deactivate") None)
      ("Failed to deactivate workflow " +:+ to_string id)
      (deactivateWorkflow serve handleAxiosError id)
  ∧ sends_only serve handleAxiosError (Request DELETE ("/executions/" +:+ to_string id) None)
      ("Failed to delete execution " +:+ to_string id)
      (deleteExecution serve handleAxiosError id).
Proof.
  repeat split; try intros data; apply guarded_request_sends_only.
Qed.

Lemma or_else_truthy a b : truthy b = true → truthy (or_else a b) = true.
Proof. intros Hb. unfold or_else. now destruct (truthy a) eqn:Ha. Qed.

Lemma list_method_cases url msg w :
  let m := try_catch
             (let* data := axios_get serve url in
              let* d := get data "data" in
              ret (or_else d (JArr [])))
             (λ error, throw (handleAxiosError error msg)) in
  sent (snd (m w)) = sent w ++ [Request GET url None]
  ∧ (∀ v w', m w = (Return v, w') → truthy v = true)
  ∧ (∀ e s, serve (Request GET url None) (upstream w) = (Rejected e, s) →
       m w = (Throw (handleAxiosError e msg),
              World s (sent w ++ [Request GET url None])))
  ∧ (∀ body s, serve (Request GET url None) (upstream w) = (Resolved body, s) →
       nullish body = true →
       ∃ e, m w = (Throw (handleAxiosError (JsTypeError e) msg),
                   World s (sent w ++ [Request GET url None]))).
Proof.
  intros m. unfold m, try_catch, bind, axios_get, axios, get, throw, ret.
  destruct (serve _ (upstream w)) as [[body|e] s] eqn:Hs.
  - destruct (nullish body) eqn:Hn;
      (split; [reflexivity | split; [|split]]); try discriminate.
    + intros ? ? H _. inversion H. eexists; reflexivity.
    + intros v w' H. inversion H. now apply or_else_truthy.
    + intros ? ? H Hn'. inversion H. subst. congruence.
  - (split; [reflexivity | split; [|split]]); try discriminate.
    intros ? ? H. inversion H. reflexivity.
Qed.

(** X2: the two list methods send exactly one request in every case; a
    value they return is truthy, so never [undefined] or [null]; a refused
    request, and a body that is [undefined] or [null], surface as a throw
    of the normalised error. *)
Theorem list_methods_return_truthy w :
  (sent (snd (getWorkflows serve handleAxiosError w))
   = sent w ++ [Request GET "/workflows" None]
   ∧ (∀ v w', getWorkflows serve handleAxiosError w = (Return v, w') →
        truthy v = true ∧ nullish v = false)
   ∧ (∀ e s, serve (Request GET "/workflows" None) (upstream w) = (Rejected e, s) →
        getWorkflows serve handleAxiosError w
        = (Throw (handleAxiosError e "Failed to fetch workflows"),
           World s (sent w ++ [Request GET "/workflows" None])))
   ∧ (∀ body s, serve (Request GET "/workflows" None) (upstream w) = (Resolved body, s) →
        nullish body = true →
        ∃ e, getWorkflows serve handleAxiosError w
             = (Throw (handleAxiosError (JsTypeError e) "Failed to fetch workflows"),
                World s (sent w ++ [Request GET "/workflows" None]))))
  ∧ (sent (snd (getExecutions serve handleAxiosError w))
     = sent w ++ [Request GET "/executions" None]
     ∧ (∀ v w', getExecutions serve handleAxiosError w = (Return v, w') →
          truthy v = true ∧ nullish v = false)
     ∧ (∀ e s, serve (Request GET "/executions" None) (upstream w) = (Rejected e, s) →
          getExecutions serve handleAxiosError w
          = (Throw (handleAxiosError e "Failed to fetch executions"),
             World s (sent w ++ [Request GET "/executions" None])))
     ∧ (∀ body s, serve (Request GET "/executions" None) (upstream w) = (Resolved body, s) →
          nullish body = true →
          ∃ e, getExecutions serve handleAxiosError w
               = (Throw (handleAxiosError (JsTypeError e) "Failed to fetch executions"),
                  World s (sent w ++ [Request GET "/executions" None])))).
Proof.
  split.
  - destruct (list_method_cases "/workflows" "Failed to fetch workflows" w)
      as (Hsent & Htruthy & Hrej & Hnull).
    split; [exact Hsent|]. split; [|split; [exact Hrej | exact Hnull]].
    intros v w' H. pose proof (Htruthy v w' H) as Ht.
    split; [exact Ht | now apply truthy_not_nullish].
  - destruct (list_method_cases "/executions" "Failed to fetch executions" w)
      as (Hsent & Htruthy & Hrej & Hnull).
    split; [exact Hsent|]. split; [|split; [exact Hrej | exact Hnull]].
    intros v w' H. pose proof (Htruthy v w' H) as Ht.
    split; [exact Ht | now apply truthy_not_nullish].
Qed.

End ClientRequests.

(** ** The gateway client: create and update *)
Section ClientUpdates.

Context {Σ : Type}.
Variable serve : request → Σ → http_result * Σ.
Variable handleAxiosError : exn → string → exn.
Implicit Types w : world Σ.

Lemma updateWorkflow_fetch_refused id workflow w e s :
  serve (fetch_request id) (upstream w) = (Rejected e, s) →
  updateWorkflow serve handleAxiosError id workflow w
  = (Throw (handleAxiosError
              (handleAxiosError e ("Failed to fetch workflow " +:+ to_string id))
              ("Failed to update workflow " +:+ to_string id)),
     World s (sent w ++ [fetch_request id])).
Proof.
  unfold fetch_request. intros Hs.
  unfold N8nApiClient.updateWorkflow, try_catch at 1.
  now rewrite (bind_throw _ _ _ _ _ (getWorkflow_rejected _ _ _ _ _ _ Hs)).
Qed.

Lemma updateWorkflow_put_refused id workflow w current s e s' :
  serve (fetch_request id) (upstream w) = (Resolved current, s) →
  nullish current = false →
  serve (put_request id (JObj (merged workflow current))) s = (Rejected e, s') →
  updateWorkflow serve handleAxiosError id workflow w
  = (Throw (handleAxiosError e ("Failed to update workflow " +:+ to_string id)),
     World s' (sent w ++ [fetch_request id;
                          put_request id (JObj (merged workflow current))])).
Proof.
  unfold fetch_request, put_request. intros Hs Hn Hp.
  rewrite (updateWorkflow_resolved _ _ _ _ _ _ _ Hs Hn).
  unfold axios_put.
  rewrite (catch_throw _ _ _ _ _ (axios_rejected serve _ (World s _) _ _ Hp)).
  unfold throw. simpl. now rewrite <- app_assoc.
Qed.

Lemma updateWorkflow_put_resolved id workflow w current s updated s' :
  serve (fetch_request id) (upstream w) = (Resolved current, s) →
  nullish current = false →
  serve (put_request id (JObj (merged workflow current))) s = (Resolved updated, s') →
  updateWorkflow serve handleAxiosError id workflow w
  = (Return updated,
     World s' (sent w ++ [fetch_request id;
                          put_request id (JObj (merged workflow current))])).
Proof.
  unfold fetch_request, put_request. intros Hs Hn Hp.
  rewrite (updateWorkflow_resolved _ _ _ _ _ _ _ Hs Hn).
  unfold axios_put.
  rewrite (catch_return _ _ _ _ _ (axios_resolved serve _ (World s _) _ _ Hp)).
  simpl. now rewrite <- app_assoc.
Qed.


#[local] Ltac lookup_in_merged :=
  unfold merged; repeat (rewrite lookup_insert_ne by discriminate);
  apply lookup_insert_eq.

Lemma merged_field workflow current k :
  k ∈ caller_fields →
  merged workflow current !! k
  = Some (if defined (prop workflow k) then prop workflow k else member current k).
Proof.
  intros Hk. unfold caller_fields in Hk.
  repeat (apply elem_of_cons in Hk as [->|Hk]);
    [lookup_in_merged.. | now apply elem_of_nil in Hk].
Qed.

Lemma merged_settings workflow current :
  merged workflow current !! "settings"
  = Some (JObj (spread (prop workflow "settings") ∪ spread (member current "settings"))).
Proof. lookup_in_merged. Qed.

Lemma merged_other workflow current k :
  k ∉ caller_fields → k ≠ "settings" →
  merged workflow current !! k = spread current !! k.
Proof.
  intros Hk Hs. unfold merged, caller_fields in *.
  rewrite !lookup_insert_ne; [reflexivity|set_solver..].
Qed.

Lemma union_absorb (a b : gmap string value) : a ∪ (a ∪ b) = a ∪ b.
Proof. now rewrite (assoc_L (∪)), (idemp_L (∪)). Qed.

(** X4: an update is idempotent on the object it sends: merging the same
    payload over the object a first update sent gives that object again.
    So when the upstream stored what it was sent, repeating the call PUTs
    the very same object. *)
Theorem merged_idempotent workflow current :
  merged workflow (JObj (merged workflow current)) = merged workflow current
  ∧ (∀ id w s,
       serve (fetch_request id) (upstream w)
       = (Resolved (JObj (merged workflow current)), s) →
       sent (snd (updateWorkflow serve handleAxiosError id workflow w))
       = sent w ++ [fetch_request id;
                    put_request id (JObj (merged workflow current))]).
Proof.
  assert (Hidem : merged workflow (JObj (merged workflow current))
                  = merged workflow current).
  { apply map_eq. intros k.
    destruct (decide (k ∈ caller_fields)) as [Hk|Hk].
    - rewrite !merged_field by exact Hk.
      destruct (defined (prop workflow k)) eqn:Hd; [reflexivity|].
      unfold member, prop at 1. rewrite merged_field by exact Hk.
      now rewrite Hd.
    - destruct (decide (k = "settings")) as [->|Hs].
      + rewrite !merged_settings. unfold member at 1, prop at 2.
        rewrite merged_settings. simpl spread at 2. now rewrite union_absorb.
      + rewrite merged_other by assumption. simpl spread. reflexivity. }
  split; [exact Hidem|].
  intros id w s Hs. unfold fetch_request, put_request in *.
  rewrite (updateWorkflow_resolved _ _ _ _ _ _ _ Hs eq_refl), put_sent, Hidem.
  simpl. now rewrite <- app_assoc.
Qed.

(** X5: the object [createWorkflow] sends has exactly the six keys [name],
    [nodes], [connections], [settings], [active] and [tags]: any other
    field of the caller's workflow is dropped.  Its [nodes],
    [connections] and [tags] are never falsy, its [active] is truthy or
    [false], and its [settings] is an object that holds every key of the
    baseline. *)
Theorem createWorkflow_body_shape workflow :
  ∃ body nodes connections tags active settings,
    workflowToCreate workflow = JObj body
    ∧ dom body = created_keys
    ∧ (∀ k, k ∉ created_keys → body !! k = None)
    ∧ body !! "nodes" = Some nodes ∧ truthy nodes = true
    ∧ body !! "connections" = Some connections ∧ truthy connections = true
    ∧ body !! "tags" = Some tags ∧ truthy tags = true
    ∧ body !! "active" = Some active
    ∧ (truthy active = true ∨ active = JBool false)
    ∧ body !! "settings" = Some (JObj settings)
    ∧ (∀ k, is_Some (default_settings !! k) → is_Some (settings !! k)).
Proof.
  eexists _, _, _, _, _, _. split; [reflexivity|].
  assert (Hdom : dom (<["name" := prop workflow "name"]>
                     (<["nodes" := or_else (prop workflow "nodes") (JArr [])]>
                     (<["connections" := or_else (prop workflow "connections") (JObj ∅)]>
                     (<["settings" := JObj (spread (prop workflow "settings")
                                            ∪ default_settings)]>
                     (<["active" := or_else (prop workflow "active") (JBool false)]>
                     (<["tags" := or_else (prop workflow "tags") (JArr [])]>
                        (∅ : gmap string value)))))))
                 = created_keys).
  { rewrite !dom_insert_L, dom_empty_L. unfold created_keys. set_solver. }
  split; [exact Hdom|]. split.
  { intros k Hk. apply not_elem_of_dom. now rewrite Hdom. }
  split; [reflexivity|]. split; [now apply or_else_truthy|].
  split; [reflexivity|]. split; [now apply or_else_truthy|].
  split; [reflexivity|]. split; [now apply or_else_truthy|].
  split; [reflexivity|]. split.
  { unfold or_else. destruct (truthy (prop workflow "active")) eqn:Ha; auto. }
  split; [reflexivity|].
  intros k [v Hv]. rewrite lookup_union.
  destruct (spread (prop workflow "settings") !! k); rewrite Hv; eauto.
Qed.

End ClientUpdates.

(** ** The update handler: which requests, and when *)
Section HandlerRequests.

Context {Σ : Type}.
Variable serve : request → Σ → http_result * Σ.
Variable handleAxiosError : exn → string → exn.
Implicit Types w : world Σ.
Implicit Types args : gmap string value.

#[local] Abbreviation execute := (UpdateWorkflowHandler.execute serve handleAxiosError).

Lemma find_loop_world name ws w : snd (find_loop (has_name name) ws w) = w.
Proof.
  induction ws as [|x ws IH]; [reflexivity|].
  simpl. unfold bind at 1, has_name, bind, get, throw, ret.
  destruct (nullish x); [reflexivity|].
  destruct (strict_eq (member x "name") name); [reflexivity | exact IH].
Qed.

Lemma array_find_world v name w : snd (array_find v (has_name name) w) = w.
Proof. destruct v; try reflexivity. apply find_loop_world. Qed.



Lemma passes_checks_true args :
  passes_checks args = true ↔
  truthy (prop args "name") = true
  ∧ invalid_nodes (prop args "nodes") = false
  ∧ invalid_connections (prop args "connections") = false.
Proof.
  unfold passes_checks. rewrite !andb_true_iff, !negb_true_iff. tauto.
Qed.

Lemma execute_rejects args w :
  passes_checks args = false →
  ∃ text, execute args w = (Return (Envelope [TextContent text] true), w).
Proof.
  intros H. unfold passes_checks in H.
  destruct (truthy (prop args "name")) eqn:Hname.
  - destruct (invalid_nodes (prop args "nodes")) eqn:Hnodes.
    + eexists. now apply execute_invalid_nodes.
    + destruct (invalid_connections (prop args "connections")) eqn:Hconn;
        [|discriminate].
      eexists. now apply execute_invalid_connections.
  - eexists. now apply execute_falsy_name.
Qed.



End HandlerRequests.

(** ** The update handler: failures of the upstream *)
Section HandlerFailures.

Context {Σ : Type}.
Variable serve : request → Σ → http_result * Σ.
Variable handleAxiosError : exn → string → exn.
Implicit Types w : world Σ.
Implicit Types args : gmap string value.

#[local] Abbreviation execute := (UpdateWorkflowHandler.execute serve handleAxiosError).

Lemma execute_throwing args w e w' :
  update_operation serve handleAxiosError args w = (Throw e, w') →
  execute args w = (Return (Envelope [TextContent (message_of e)] true), w').
Proof.
  intros H. unfold UpdateWorkflowHandler.execute, handleExecution.
  now rewrite (catch_throw _ _ _ _ _ H).
Qed.

Lemma execute_list_refused args w e s :
  passes_checks args = true →
  serve list_request (upstream w) = (Rejected e, s) →
  execute args w
  = (Return (Envelope
               [TextContent (message_of (handleAxiosError e "Failed to fetch workflows"))]
               true),
     World s (sent w ++ [list_request])).
Proof.
  intros Hc Hs. apply passes_checks_true in Hc as (Hname & Hnodes & Hconn).
  apply execute_throwing. unfold UpdateWorkflowHandler.update_operation.
  rewrite Hname, Hnodes, Hconn. cbn [negb]. apply bind_throw.
  destruct (list_method_cases serve handleAxiosError "/workflows"
              "Failed to fetch workflows" w) as (_ & _ & Hrej & _).
  exact (Hrej e s Hs).
Qed.

Lemma update_operation_selected args w body s ws old :
  passes_checks args = true →
  serve list_request (upstream w) = (Resolved body, s) →
  nullish body = false →
  member body "data" = JArr ws →
  first_match (prop args "name") ws old →
  update_operation serve handleAxiosError args w
  = apply_update serve handleAxiosError args old (World s (sent w ++ [list_request])).
Proof.
  intros Hc. apply passes_checks_true in Hc as (Hname & Hnodes & Hconn).
  now apply update_operation_found.
Qed.

(** X8: what the handler answers when the upstream fails.  Each failure
    ends in an error envelope, never in a throw.  A refused list request is
    reported with the message of the normalised error, after that one
    request.  With a workflow found, a refused fetch is reported with the
    message of the twice-normalised error and no PUT is sent; a refused PUT
    is reported after all three requests; and a PUT whose response body is
    [null] or [undefined] is reported as an error although the PUT was
    sent and answered. *)
Theorem execute_reports_upstream_failures args w :
  passes_checks args = true →
  (∀ e s, serve list_request (upstream w) = (Rejected e, s) →
     execute args w
     = (Return (Envelope
                  [TextContent
                     (message_of (handleAxiosError e "Failed to fetch workflows"))]
                  true),
        World s (sent w ++ [list_request])))
  ∧ (∀ body s ws old,
       serve list_request (upstream w) = (Resolved body, s) →
       nullish body = false →
       member body "data" = JArr ws →
       first_match (prop args "name") ws old →
       let id := member old "id" in
       (∀ e s1, serve (fetch_request id) s = (Rejected e, s1) →
          execute args w
          = (Return (Envelope
                       [TextContent
                          (message_of
                             (handleAxiosError
                                (handleAxiosError e
                                   ("Failed to fetch workflow " +:+ to_string id))
                                ("Failed to update workflow " +:+ to_string id)))]
                       true),
             World s1 (sent w ++ [list_request; fetch_request id])))
       ∧ (∀ current s1,
            serve (fetch_request id) s = (Resolved current, s1) →
            nullish current = false →
            let put := put_request id (update_body args old current) in
            (∀ e s2, serve put s1 = (Rejected e, s2) →
               execute args w
               = (Return (Envelope
                            [TextContent
                               (message_of
                                  (handleAxiosError e
                                     ("Failed to update workflow " +:+ to_string id)))]
                            true),
                  World s2 (sent w ++ [list_request; fetch_request id; put])))
            ∧ (∀ updated s2, serve put s1 = (Resolved updated, s2) →
                 nullish updated = true →
                 ∃ text,
                   execute args w
                   = (Return (Envelope [TextContent text] true),
                      World s2 (sent w ++ [list_request; fetch_request id; put]))))).
Proof.
  intros Hc. split.
  - intros e s. now apply execute_list_refused.
  - intros body s ws old Hs Hb Hdata Hold id.
    pose proof (update_operation_selected _ _ _ _ _ _ Hc Hs Hb Hdata Hold) as Hop.
    split.
    + intros e s1 Hf. apply execute_throwing. rewrite Hop.
      unfold UpdateWorkflowHandler.apply_update.
      rewrite (bind_throw _ _ _ _ _
                 (updateWorkflow_fetch_refused serve handleAxiosError id _
                    (World s _) _ _ Hf)).
      simpl. now rewrite <- app_assoc.
    + intros current s1 Hf Hn put. split.
      * intros e s2 Hp. apply execute_throwing. rewrite Hop.
        unfold UpdateWorkflowHandler.apply_update.
        rewrite (bind_throw _ _ _ _ _
                   (updateWorkflow_put_refused serve handleAxiosError id _
                      (World s _) _ _ _ _ Hf Hn Hp)).
        simpl. now rewrite <- app_assoc.
      * intros updated s2 Hp Hu. eexists. apply execute_throwing. rewrite Hop.
        unfold UpdateWorkflowHandler.apply_update.
        rewrite (bind_return _ _ _ _ _
                   (updateWorkflow_put_resolved serve handleAxiosError id _
                      (World s _) _ _ _ _ Hf Hn Hp)).
        unfold bind, get. rewrite Hu. unfold throw. simpl.
        now rewrite <- app_assoc.
Qed.

End HandlerFailures.

(** ** The update handler: what reaches the upstream *)

Lemma workflowData_name args old :
  prop (workflowData args old) "name"
  = if defined (prop args "newName") then prop args "newName"
    else prop (spread old) "name".
Proof.
  unfold workflowData, assign_if_defined.
  destruct (defined (prop args "tags")), (defined (prop args "active")),
    (defined (prop args "connections")), (defined (prop args "nodes")),
    (defined (prop args "newName"));
    unfold prop at 1; repeat (rewrite lookup_insert_ne by discriminate);
    rewrite ?lookup_insert_eq; reflexivity.
Qed.

Lemma workflowData_field args old k :
  k ∈ ["nodes"; "connections"; "active"; "tags"] →
  prop (workflowData args old) k
  = if defined (prop args k) then prop args k else prop (spread old) k.
Proof.
  intros Hk. repeat (apply elem_of_cons in Hk as [->|Hk]);
    [..| now apply elem_of_nil in Hk];
    unfold workflowData, assign_if_defined;
    destruct (defined (prop args "tags")), (defined (prop args "active")),
      (defined (prop args "connections")), (defined (prop args "nodes")),
      (defined (prop args "newName"));
    unfold prop at 1; repeat (rewrite lookup_insert_ne by discriminate);
    rewrite ?lookup_insert_eq; reflexivity.
Qed.

Lemma workflowData_settings args old :
  prop (workflowData args old) "settings" = prop (spread old) "settings".
Proof.
  unfold workflowData, assign_if_defined.
  destruct (defined (prop args "tags")), (defined (prop args "active")),
    (defined (prop args "connections")), (defined (prop args "nodes")),
    (defined (prop args "newName"));
    unfold prop at 1; repeat (rewrite lookup_insert_ne by discriminate);
    reflexivity.
Qed.

Lemma first_defined_nested a b c :
  (if defined (if defined a then a else b)
   then (if defined a then a else b) else c)
  = first_defined a b c.
Proof. unfold first_defined. destruct (defined a) eqn:Ha; [now rewrite Ha | reflexivity]. Qed.

(** X9: what the PUT of the handler carries.  For [nodes], [connections],
    [active] and [tags] the object holds the caller's value when supplied,
    else the value of the entry found in the list when it has one, else
    the freshly fetched value; [name] likewise, with the caller's
    [newName]; so an entry of the list takes precedence over the workflow
    fetched after it.  [settings] are the list entry's settings over the
    fetched ones, whatever the caller passed as [settings]; every other
    field is the fetched one. *)
Theorem update_body_precedence args old current :
  ∃ body,
    update_body args old current = JObj body
    ∧ body !! "name"
      = Some (first_defined (prop args "newName") (prop (spread old) "name")
                (member current "name"))
    ∧ (∀ k, k ∈ ["nodes"; "connections"; "active"; "tags"] →
         body !! k
         = Some (first_defined (prop args k) (prop (spread old) k) (member current k)))
    ∧ body !! "settings"
      = Some (JObj (spread (prop (spread old) "settings")
                    ∪ spread (member current "settings")))
    ∧ (∀ k, k ∉ caller_fields → k ≠ "settings" → body !! k = spread current !! k).
Proof.
  exists (merged (workflowData args old) current). split; [reflexivity|].
  split; [|split; [|split]].
  - rewrite merged_field by apply list_elem_of_here.
    now rewrite workflowData_name, first_defined_nested.
  - intros k Hk. rewrite merged_field by (apply list_elem_of_further; exact Hk).
    now rewrite (workflowData_field _ _ _ Hk), first_defined_nested.
  - now rewrite merged_settings, workflowData_settings.
  - apply merged_other.
Qed.

(** X10: the handler looks at six arguments only, the ones its input
    schema declares: two argument mappings that agree on [name],
    [newName], [nodes], [connections], [active] and [tags] give the same
    envelope and the same requests, whatever else they hold. *)
Theorem execute_reads_declared_arguments {Σ}
    (serve : request → Σ → http_result * Σ) handleAxiosError
    (args args' : gmap string value) (w : world Σ) :
  (∀ k, is_Some (update_workflow_properties !! k) → args !! k = args' !! k) →
  UpdateWorkflowHandler.execute serve handleAxiosError args w
  = UpdateWorkflowHandler.execute serve handleAxiosError args' w.
Proof.
  intros Hsame.
  assert (Hp : ∀ k, is_Some (update_workflow_properties !! k) →
                 prop args k = prop args' k).
  { intros k Hk. unfold prop. now rewrite (Hsame k Hk). }
  pose proof (Hp "name" ltac:(eexists; reflexivity)) as H1.
  pose proof (Hp "newName" ltac:(eexists; reflexivity)) as H2.
  pose proof (Hp "nodes" ltac:(eexists; reflexivity)) as H3.
  pose proof (Hp "connections" ltac:(eexists; reflexivity)) as H4.
  pose proof (Hp "active" ltac:(eexists; reflexivity)) as H5.
  pose proof (Hp "tags" ltac:(eexists; reflexivity)) as H6.
  unfold UpdateWorkflowHandler.execute, handleExecution,
    UpdateWorkflowHandler.update_operation, UpdateWorkflowHandler.apply_update,
    workflowData, changesArray, name_change, active_change.
  now rewrite H1, H2, H3, H4, H5, H6.
Qed.

(** ** The dispatcher: registered tools *)
Section DispatcherRegistry.

Context {Σ : Type}.
Variable serve : request → Σ → http_result * Σ.
Variable handleAxiosError : exn → string → exn.
Variable other_execute : string → gmap string value → M Σ ToolCallResult.
Implicit Types w : world Σ.

#[local] Abbreviation registry := (toolHandlers serve handleAxiosError other_execute).

Lemma call_tool_returned (handlers : gmap string (gmap string value → M Σ ToolCallResult))
    toolName arguments w (handler : gmap string value → M Σ ToolCallResult) r w' :
  handlers !! toolName = Some handler →
  handler (default ∅ arguments) w = (Return r, w') →
  call_tool handlers toolName arguments w = (Return r, w').
Proof.
  intros Hh Hr. unfold call_tool, try_catch. rewrite Hh.
  rewrite (bind_return _ _ _ _ _ Hr). now destruct r.
Qed.

Lemma execute_returns args w :
  ∃ r w', UpdateWorkflowHandler.execute serve handleAxiosError args w = (Return r, w').
Proof.
  unfold UpdateWorkflowHandler.execute, handleExecution, try_catch.
  destruct (update_operation serve handleAxiosError args w) as [[r|e] w'];
    eexists _, _; reflexivity.
Qed.

Lemma registry_update_workflow :
  registry !! "update_workflow"
  = Some (UpdateWorkflowHandler.execute serve handleAxiosError).
Proof.
  unfold toolHandlers. repeat (rewrite lookup_insert_ne by discriminate).
  apply lookup_insert_eq.
Qed.

(** X11: the dispatcher is transparent for a handler that returns: the
    caller gets the handler's envelope, content and error flag unchanged,
    and the world the handler left.  For the registered [update_workflow]
    a tool call is the handler's [execute] on the arguments, or on the
    empty mapping when the arguments are left out, which is then answered
    with "Missing required parameter: name" without any request. *)
Theorem call_tool_is_transparent :
  (∀ (handlers : gmap string (gmap string value → M Σ ToolCallResult))
     toolName arguments w (handler : gmap string value → M Σ ToolCallResult) r w',
     handlers !! toolName = Some handler →
     handler (default ∅ arguments) w = (Return r, w') →
     call_tool handlers toolName arguments w = (Return r, w'))
  ∧ (∀ arguments w,
       call_tool registry "update_workflow" arguments w
       = UpdateWorkflowHandler.execute serve handleAxiosError (default ∅ arguments) w)
  ∧ (∀ w,
       call_tool registry "update_workflow" None w
       = (Return (Envelope [TextContent "Missing required parameter: name"] true), w)).
Proof.
  split; [|split].
  - intros handlers toolName arguments w handler r w'. apply call_tool_returned.
  - intros arguments w.
    destruct (execute_returns (default ∅ arguments) w) as (r & w' & Hr).
    rewrite Hr. exact (call_tool_returned _ _ _ _ _ _ _ registry_update_workflow Hr).
  - intros w.
    apply (call_tool_returned _ _ None _ _ _ _ registry_update_workflow).
    now apply execute_falsy_name.
Qed.

(** X12: [configureServer] registers a handler under exactly the eleven
    tool names; a call with any other name is answered with the
    "Unknown tool" error envelope and sends no request, whatever its
    arguments. *)
Theorem registry_has_eleven_tools toolName :
  (is_Some (registry !! toolName) ↔ toolName ∈ tool_names)
  ∧ length tool_names = 11
  ∧ NoDup tool_names
  ∧ (toolName ∉ tool_names →
     ∀ arguments w,
       call_tool registry toolName arguments w
       = (Return (Envelope [TextContent ("Error: Unknown tool: " +:+ toolName)] true),
          w)).
Proof.
  assert (Hnone : registry !! toolName = None ↔ toolName ∉ tool_names).
  { unfold toolHandlers, tool_names.
    rewrite !lookup_insert_None, lookup_empty, !not_elem_of_cons.
    split.
    - intros H. repeat split; try (intros ->; intuition congruence).
      apply not_elem_of_nil.
    - intros H. intuition congruence. }
  split; [|split; [reflexivity|split]].
  - rewrite <- not_eq_None_Some, Hnone.
    destruct (decide (toolName ∈ tool_names)); tauto.
  - apply (bool_decide_unpack _). vm_compute. exact I.
  - intros Hn arguments w. apply Hnone in Hn.
    unfold call_tool, try_catch. now rewrite Hn.
Qed.

End DispatcherRegistry.

(** ** The tool definitions handed to the server *)

Lemma toolsObject_snoc tools t :
  toolsObject (tools ++ [t]) = assign_property (tool_name t) t (toolsObject tools).
Proof. unfold toolsObject. now rewrite foldl_app. Qed.

Lemma toolsObject_last tools n :
  n ≠ "__proto__" →
  toolsObject tools !! n = last (filter (λ t, tool_name t = n) tools).
Proof.
  intros Hn. induction tools as [|t tools IH] using rev_ind; [reflexivity|].
  rewrite toolsObject_snoc, filter_app, filter_cons, filter_nil.
  unfold assign_property. destruct (decide (tool_name t = n)) as [<-|Hne].
  - rewrite last_snoc. rewrite bool_decide_eq_false_2 by exact Hn.
    apply lookup_insert_eq.
  - rewrite app_nil_r, <- IH. case_bool_decide; [reflexivity|].
    now apply lookup_insert_ne.
Qed.

Lemma toolsObject_proto tools : toolsObject tools !! "__proto__" = None.
Proof.
  induction tools as [|t tools IH] using rev_ind; [reflexivity|].
  rewrite toolsObject_snoc. unfold assign_property.
  case_bool_decide as Hp; [exact IH|]. now rewrite lookup_insert_ne.
Qed.

(** X13: the object built from the loaded tools is keyed by tool name;
    under a name it holds the last tool of the list with that name, so a
    later tool replaces an earlier one of the same name; every entry is a
    tool of the list stored under its own name; and when the names are
    distinct every tool is found under its name.  A tool named
    [__proto__] never becomes an entry. *)
Theorem toolsObject_keeps_last tools :
  (∀ n, n ≠ "__proto__" →
     toolsObject tools !! n = last (filter (λ t, tool_name t = n) tools))
  ∧ toolsObject tools !! "__proto__" = None
  ∧ (∀ n t, toolsObject tools !! n = Some t → t ∈ tools ∧ tool_name t = n)
  ∧ (NoDup (tool_name <$> tools) →
     ∀ t, t ∈ tools → tool_name t ≠ "__proto__" →
          toolsObject tools !! tool_name t = Some t).
Proof.
  split; [intros n; apply toolsObject_last|].
  split; [apply toolsObject_proto|]. split.
  - intros n t Hl. destruct (decide (n = "__proto__")) as [->|Hn].
    { rewrite toolsObject_proto in Hl. discriminate. }
    rewrite (toolsObject_last _ _ Hn) in Hl.
    apply last_Some_elem_of, list_elem_of_filter in Hl as [Hname Hin]. now split.
  - induction tools as [|x tools IH] using rev_ind.
    { intros _ t Ht. now apply elem_of_nil in Ht. }
    rewrite fmap_app. intros Hnd t Ht Hp.
    apply NoDup_app in Hnd as (Hnd & Hfresh & _).
    rewrite toolsObject_snoc. unfold assign_property.
    apply elem_of_app in Ht as [Ht|Ht].
    + assert (Hne : tool_name x ≠ tool_name t).
      { intros Heq. apply (Hfresh (tool_name t)).
        - now apply list_elem_of_fmap_2.
        - rewrite <- Heq. simpl. apply list_elem_of_here. }
      case_bool_decide; [now apply IH|].
      rewrite lookup_insert_ne by exact Hne. now apply IH.
    + apply list_elem_of_singleton in Ht as ->.
      rewrite bool_decide_eq_false_2 by exact Hp. apply lookup_insert_eq.
Qed.

(** ** The connectivity probe *)
Section ProbeProperties.

Context {Σ : Type}.
Variable respond : request → Σ → Connectivity.reply * Σ.
Variable handleAxiosError : exn → string → exn.
Variable debug : bool.
Implicit Types w : world Σ.

#[local] Abbreviation checkConnectivity :=
  (Connectivity.checkConnectivity respond handleAxiosError debug).

(** X14: the probe sends the one request [GET /workflows].  It succeeds
    exactly when the upstream answers with status 200 and, in debug mode,
    with a body that is not [null] or [undefined]: with debugging on, the
    log line reads the body and a missing body fails the probe.  Every
    failure is thrown as the normalised error with the message
    "Failed to connect to n8n API"; an answer with another status is
    first turned into "n8n API connectivity check failed" carrying that
    status. *)
Theorem checkConnectivity_succeeds_iff w :
  sent (snd (checkConnectivity w)) = sent w ++ [probe]
  ∧ ((∃ w', checkConnectivity w = (Return tt, w'))
     ↔ ∃ resp s,
         respond probe (upstream w) = (Connectivity.Replied resp, s)
         ∧ Connectivity.status resp = 200%Z
         ∧ (debug = true → nullish (Connectivity.data resp) = false))
  ∧ (∀ e w', checkConnectivity w = (Throw e, w') →
       ∃ cause, e = handleAxiosError cause "Failed to connect to n8n API")
  ∧ (∀ resp s,
       respond probe (upstream w) = (Connectivity.Replied resp, s) →
       Connectivity.status resp ≠ 200%Z →
       checkConnectivity w
       = (Throw (handleAxiosError
                   (N8nApiError "n8n API connectivity check failed"
                      (Some (Connectivity.status resp)))
                   "Failed to connect to n8n API"),
          World s (sent w ++ [probe]))).
Proof.
  unfold Connectivity.checkConnectivity, try_catch, bind,
    Connectivity.axios_response, Connectivity.check_failed, get, throw, ret, probe.
  destruct (respond _ (upstream w)) as [[resp|e] s] eqn:Hr.
  - destruct (Z.eqb_spec (Connectivity.status resp) 200) as [Hst|Hst]; cbn [negb].
    + destruct debug.
      * destruct (nullish (Connectivity.data resp)) eqn:Hn.
        -- split; [reflexivity|]. split; [|split].
           ++ split; [intros [w' H]; discriminate|].
              intros (resp' & s' & H & _ & Hd). injection H as <- <-.
              specialize (Hd eq_refl). congruence.
           ++ intros e w' H. injection H as <- _. eexists; reflexivity.
           ++ intros resp' s' H Hne. injection H as <- <-. contradiction.
        -- split; [reflexivity|]. split; [|split].
           ++ split; [|intros _; eexists; reflexivity].
              intros _. exists resp, s. repeat split; auto.
           ++ intros e w' H. discriminate.
           ++ intros resp' s' H Hne. injection H as <- <-. contradiction.
      * split; [reflexivity|]. split; [|split].
        -- split; [|intros _; eexists; reflexivity].
           intros _. exists resp, s. repeat split; auto. discriminate.
        -- intros e w' H. discriminate.
        -- intros resp' s' H Hne. injection H as <- <-. contradiction.
    + split; [reflexivity|]. split; [|split].
      * split; [intros [w' H]; discriminate|].
        intros (resp' & s' & H & Hst' & _). injection H as <- <-. contradiction.
      * intros e w' H. injection H as <- _. eexists; reflexivity.
      * intros resp' s' H Hne. injection H as <- <-. reflexivity.
  - split; [reflexivity|]. split; [|split].
    + split; [intros [w' H]; discriminate|].
      intros (resp' & s' & H & _). discriminate.
    + intros e' w' H. injection H as <- _. eexists; reflexivity.
    + intros resp' s' H. discriminate.
Qed.

End ProbeProperties.

(** ** The update handler: list answers without a usable list *)
Section HandlerListAnswers.

Context {Σ : Type}.
Variable serve : request → Σ → http_result * Σ.
Variable handleAxiosError : exn → string → exn.
Implicit Types w : world Σ.
Implicit Types args : gmap string value.

#[local] Abbreviation execute := (UpdateWorkflowHandler.execute serve handleAxiosError).

Lemma update_operation_with_list args w body s :
  passes_checks args = true →
  serve list_request (upstream w) = (Resolved body, s) →
  nullish body = false →
  update_operation serve handleAxiosError args w
  = (let* workflow :=
       array_find (or_else (member body "data") (JArr []))
         (has_name (prop args "name")) in
     if negb (truthy workflow) then throw (not_found (prop args "name"))
     else apply_update serve handleAxiosError args workflow)
      (World s (sent w ++ [list_request])).
Proof.
  intros Hc Hs Hb. apply passes_checks_true in Hc as (Hname & Hnodes & Hconn).
  unfold UpdateWorkflowHandler.update_operation.
  rewrite Hname, Hnodes, Hconn. cbn [negb].
  now rewrite (bind_return _ _ _ _ _ (getWorkflows_resolved _ _ _ _ _ Hs Hb)).
Qed.

Lemma find_loop_null_entry name pre x post w :
  Forall (no_match name) pre →
  nullish x = true →
  ∃ e, find_loop (has_name name) (pre ++ x :: post) w = (Throw e, w).
Proof.
  intros Hpre Hx. induction Hpre as [|y pre [Hy Hne] _ IH]; simpl.
  - unfold bind, has_name, bind, get, throw. rewrite Hx. eexists; reflexivity.
  - now rewrite (bind_return _ _ _ _ _ (has_name_ok _ _ _ Hy)), Hne.
Qed.

(** X15: list answers without a usable list.  When the [data] field of
    the answer is absent or falsy, the handler reports that the workflow
    was not found; when it is truthy but not an array, and when the array
    holds a [null] entry before any entry with the wanted name, the
    lookup fails and the handler returns an error envelope, even if a
    matching entry follows.  In each case the list request is the only
    request sent. *)
Theorem execute_on_unusable_list args w body s :
  passes_checks args = true →
  serve list_request (upstream w) = (Resolved body, s) →
  nullish body = false →
  (truthy (member body "data") = false →
     execute args w
     = (Return (Envelope
                  [TextContent ("Workflow with name " +:+ dquote
                                +:+ to_string (prop args "name") +:+ dquote
                                +:+ " not found")]
                  true),
        World s (sent w ++ [list_request])))
  ∧ (truthy (member body "data") = true →
     isArray (member body "data") = false →
     ∃ text,
       execute args w
       = (Return (Envelope [TextContent text] true),
          World s (sent w ++ [list_request])))
  ∧ (∀ pre x post,
       member body "data" = JArr (pre ++ x :: post) →
       Forall (no_match (prop args "name")) pre →
       nullish x = true →
       ∃ text,
         execute args w
         = (Return (Envelope [TextContent text] true),
            World s (sent w ++ [list_request]))).
Proof.
  intros Hc Hs Hb.
  pose proof (update_operation_with_list _ _ _ _ Hc Hs Hb) as Hop.
  split; [|split].
  - intros Hd.
    apply (execute_throwing serve handleAxiosError args w
             (not_found (prop args "name"))).
    rewrite Hop. unfold or_else. rewrite Hd. reflexivity.
  - intros Hd Ha. eexists. apply execute_throwing. rewrite Hop.
    unfold or_else. rewrite Hd.
    destruct (member body "data"); try discriminate; reflexivity.
  - intros pre x post Hd Hpre Hx.
    destruct (find_loop_null_entry _ _ _ post (World s (sent w ++ [list_request]))
                Hpre Hx) as [e He].
    eexists. apply execute_throwing. rewrite Hop, Hd.
    unfold or_else. simpl truthy. cbv iota. unfold array_find.
    now rewrite (bind_throw _ _ _ _ _ He).
Qed.

End HandlerListAnswers.

(** ** The update handler: the requests of one call *)
Section HandlerDiscipline.

Context {Σ : Type}.
Variable serve : request → Σ → http_result * Σ.
Variable handleAxiosError : exn → string → exn.
Implicit Types w : world Σ.
Implicit Types args : gmap string value.

#[local] Abbreviation execute := (UpdateWorkflowHandler.execute serve handleAxiosError).

Lemma update_operation_list_failed args w :
  passes_checks args = true →
  (∀ body s, serve list_request (upstream w) = (Resolved body, s) →
             nullish body = true) →
  sent (snd (update_operation serve handleAxiosError args w))
  = sent w ++ [list_request].
Proof.
  intros Hc Hfail. apply passes_checks_true in Hc as (Hname & Hnodes & Hconn).
  unfold UpdateWorkflowHandler.update_operation.
  rewrite Hname, Hnodes, Hconn. cbn [negb].
  destruct (list_method_cases serve handleAxiosError "/workflows"
              "Failed to fetch workflows" w) as (_ & _ & Hrej & Hnull).
  fold list_request in Hrej, Hnull.
  destruct (serve list_request (upstream w)) as [[body|e] s] eqn:Hs.
  - destruct (Hnull body s eq_refl (Hfail body s eq_refl)) as [e He].
    now rewrite (bind_throw _ _ _ _ _ He).
  - now rewrite (bind_throw _ _ _ _ _ (Hrej e s eq_refl)).
Qed.

(** X6: the requests of one call.  Whatever the arguments and the
    upstream, a call of the update handler sends nothing at all, or the
    list request alone, or, when the list that request returned has a
    first entry with the wanted name, the list request and the fetch of
    that entry's id, or those two and one PUT to the same id, carrying the
    object merged from the arguments, that entry and the workflow the
    fetch returned: never more than three requests, never a request other
    than these, never a PUT without the two reads before it. *)
Theorem execute_request_discipline args w :
  ∃ requests,
    sent (snd (execute args w)) = sent w ++ requests
    ∧ (requests = []
       ∨ requests = [list_request]
       ∨ ∃ body s ws old,
           serve list_request (upstream w) = (Resolved body, s)
           ∧ member body "data" = JArr ws
           ∧ first_match (prop args "name") ws old
           ∧ (requests = [list_request; fetch_request (member old "id")]
              ∨ ∃ current s1,
                  serve (fetch_request (member old "id")) s = (Resolved current, s1)
                  ∧ nullish current = false
                  ∧ requests
                    = [list_request; fetch_request (member old "id");
                       put_request (member old "id") (update_body args old current)])).
Proof.
  destruct (passes_checks args) eqn:Hchecks.
  2:{ destruct (execute_rejects serve handleAxiosError args w Hchecks) as [text Hrun].
      exists []. rewrite Hrun. simpl. rewrite app_nil_r. auto. }
  unfold UpdateWorkflowHandler.execute. rewrite handleExecution_sent.
  destruct (serve list_request (upstream w)) as [[body|e] s] eqn:Hs.
  2:{ exists [list_request]. split; [|auto].
      apply update_operation_list_failed; [exact Hchecks|].
      intros body s'. rewrite Hs. discriminate. }
  destruct (nullish body) eqn:Hb.
  { exists [list_request]. split; [|auto].
    apply update_operation_list_failed; [exact Hchecks|].
    intros body' s'. rewrite Hs. intros [= <- <-]. exact Hb. }
  rewrite (update_operation_with_list serve handleAxiosError _ _ _ _ Hchecks Hs Hb).
  unfold bind at 1.
  pose proof (array_find_world (Σ := Σ) (or_else (member body "data") (JArr []))
                (prop args "name") (World s (sent w ++ [list_request]))) as Hw.
  destruct (array_find (or_else (member body "data") (JArr []))
              (has_name (prop args "name")) (World s (sent w ++ [list_request])))
    as [[old|e] w2] eqn:Hfind; simpl in Hw; subst w2.
  2:{ exists [list_request]. auto. }
  destruct (truthy old) eqn:Hold; cbn [negb].
  2:{ exists [list_request]. auto. }
  unfold array_find in Hfind.
  destruct (or_else (member body "data") (JArr [])) as [| | | | |ws|] eqn:Hv;
    try discriminate.
  apply find_loop_inv in Hfind as [_ Hfirst]; [|exact Hold].
  assert (Hdata : member body "data" = JArr ws).
  { unfold or_else in Hv. destruct (truthy (member body "data")); [exact Hv|].
    injection Hv as <-. destruct Hfirst as (pre & post & Hws & _).
    now destruct pre. }
  rewrite apply_update_sent.
  set (id := member old "id").
  destruct (serve (fetch_request id) s) as [[current|e] s1] eqn:Hfetch.
  - destruct (nullish current) eqn:Hn.
    + unfold fetch_request in Hfetch.
      destruct (updateWorkflow_nullish serve handleAxiosError id
                  (workflowData args old) (World s (sent w ++ [list_request]))
                  _ _ Hfetch Hn) as [e He].
      exists [list_request; fetch_request id]. split.
      * rewrite He. simpl. now rewrite <- app_assoc.
      * right. right. exists body, s, ws, old. auto.
    + exists [list_request; fetch_request id;
              put_request id (update_body args old current)].
      split.
      * unfold fetch_request in Hfetch.
        rewrite (updateWorkflow_resolved serve handleAxiosError id
                   (workflowData args old) (World s (sent w ++ [list_request]))
                   _ _ Hfetch Hn), put_sent.
        simpl. now rewrite <- !app_assoc.
      * right. right. exists body, s, ws, old.
        repeat split; auto. right. exists current, s1. auto.
  - exists [list_request; fetch_request id]. split.
    + rewrite (updateWorkflow_fetch_refused serve handleAxiosError id
                 (workflowData args old) (World s (sent w ++ [list_request]))
                 _ _ Hfetch).
      simpl. now rewrite <- app_assoc.
    + right. right. exists body, s, ws, old. auto.
Qed.

End HandlerDiscipline.

(** ** Scenarios for the further properties *)

Lemma client_methods_send_one_request_witness :
  activateWorkflow Scripted.serve Reference.handleAxiosError (JStr "wf1")
    (World [Resolved (JObj ∅)] [])
  = (Return (JObj ∅), World [] [Request POST "/workflows/wf1/activate" None])
  ∧ deleteExecution Scripted.serve Reference.handleAxiosError (JStr "wf1")
      (World [] [])
    = (Throw (Reference.handleAxiosError (AxiosError "connect ECONNREFUSED" None)
                "Failed to delete execution wf1"),
       World [] [Request DELETE "/executions/wf1" None])
  ∧ sent (snd (executeWorkflow Scripted.serve Reference.handleAxiosError (JStr "wf1")
                 JUndefined (World [] [])))
    = [Request POST "/workflows/wf1/execute" (Some (JObj ∅))].
Proof.
  destruct (client_methods_send_one_request Scripted.serve Reference.handleAxiosError
              (JStr "wf1")) as (_ & Hexec & _ & Hact & _ & Hdel).
  destruct (Hact (World [Resolved (JObj ∅)] [])) as (_ & Hres & _).
  destruct (Hdel (World [] [])) as (_ & _ & Hrej).
  destruct (Hexec JUndefined (World [] [])) as (Hsent & _ & _).
  split; [exact (Hres _ _ eq_refl) | split; [exact (Hrej _ _ eq_refl) | exact Hsent]].
Defined.

Lemma list_methods_return_truthy_witness :
  getWorkflows Scripted.serve Reference.handleAxiosError (World [] [])
  = (Throw (Reference.handleAxiosError (AxiosError "connect ECONNREFUSED" None)
              "Failed to fetch workflows"),
     World [] [Request GET "/workflows" None])
  ∧ (∃ e, getExecutions Scripted.serve Reference.handleAxiosError
            (World [Resolved JNull] [])
          = (Throw (Reference.handleAxiosError (JsTypeError e)
                      "Failed to fetch executions"),
             World [] [Request GET "/executions" None]))
  ∧ truthy (JArr [Reference.other_workflow; Reference.test_workflow]) = true.
Proof.
  destruct (list_methods_return_truthy Scripted.serve Reference.handleAxiosError
              (World [] [])) as [(_ & _ & Hrej & _) _].
  destruct (list_methods_return_truthy Scripted.serve Reference.handleAxiosError
              (World [Resolved JNull] [])) as [_ (_ & _ & _ & Hnull)].
  destruct (list_methods_return_truthy Reference.serve Reference.handleAxiosError
              Reference.initial) as [(_ & Htruthy & _) _].
  split; [exact (Hrej _ _ eq_refl) | split; [exact (Hnull _ _ eq_refl eq_refl)|]].
  exact (proj1 (Htruthy _ _ eq_refl)).
Defined.


Lemma merged_idempotent_witness :
  sent (snd (updateWorkflow Scripted.serve Reference.handleAxiosError (JStr "wf1")
               {["active" := JBool true]}
               (World [Resolved (JObj (merged {["active" := JBool true]}
                                         Reference.test_workflow));
                       Resolved JNull] [])))
  = [fetch_request (JStr "wf1");
     put_request (JStr "wf1")
       (JObj (merged {["active" := JBool true]} Reference.test_workflow))].
Proof.
  destruct (merged_idempotent Scripted.serve Reference.handleAxiosError
              {["active" := JBool true]} Reference.test_workflow) as [_ Hsent].
  exact (Hsent (JStr "wf1")
           (World [Resolved (JObj (merged {["active" := JBool true]}
                                     Reference.test_workflow));
                   Resolved JNull] [])
           [Resolved JNull] eq_refl).
Defined.

Lemma createWorkflow_body_shape_witness :
  ∃ body,
    workflowToCreate (<["name" := JStr "New"]> {["id" := JNum 7]}) = JObj body
    ∧ body !! "id" = None
    ∧ is_Some (body !! "settings").
Proof.
  destruct (createWorkflow_body_shape (<["name" := JStr "New"]> {["id" := JNum 7]}))
    as (body & nodes & connections & tags & active & settings
        & Hbody & Hdom & Hdrop & _ & _ & _ & _ & _ & _ & _ & _ & Hset & _).
  exists body. split; [exact Hbody|]. split.
  - apply Hdrop. apply (bool_decide_unpack _). vm_compute. exact I.
  - rewrite Hset. eexists. reflexivity.
Defined.


(** The answer of the list request in the scripted scenarios. *)
Lemma scripted_list_body :
  member (JObj {["data" := JArr [Reference.other_workflow; Reference.test_workflow]]})
    "data"
  = JArr [Reference.other_workflow; Reference.test_workflow].
Proof. reflexivity. Qed.

Lemma execute_reports_upstream_failures_witness :
  (∃ text,
     UpdateWorkflowHandler.execute Scripted.serve Reference.handleAxiosError
       only_name_Test (World [] [])
     = (Return (Envelope [TextContent text] true), World [] [list_request]))
  ∧ (∃ text,
       UpdateWorkflowHandler.execute Scripted.serve Reference.handleAxiosError
         only_name_Test
         (World [Resolved (JObj {["data" := JArr [Reference.other_workflow;
                                                  Reference.test_workflow]]})] [])
       = (Return (Envelope [TextContent text] true),
          World [] [list_request; fetch_request (JStr "wf1")]))
  ∧ (∃ text w',
       UpdateWorkflowHandler.execute Scripted.serve Reference.handleAxiosError
         only_name_Test
         (World [Resolved (JObj {["data" := JArr [Reference.other_workflow;
                                                  Reference.test_workflow]]});
                 Resolved Reference.test_workflow; Resolved JNull] [])
       = (Return (Envelope [TextContent text] true), w')
       ∧ length (sent w') = 3).
Proof.
  destruct (execute_reports_upstream_failures Scripted.serve
              Reference.handleAxiosError only_name_Test (World [] []) eq_refl)
    as [Hlist _].
  destruct (execute_reports_upstream_failures Scripted.serve
              Reference.handleAxiosError only_name_Test
              (World [Resolved (JObj {["data" := JArr [Reference.other_workflow;
                                                       Reference.test_workflow]]})] [])
              eq_refl) as [_ Hfound].
  destruct (Hfound _ _ _ _ eq_refl eq_refl scripted_list_body reference_first_match)
    as [Hfetch _].
  destruct (execute_reports_upstream_failures Scripted.serve
              Reference.handleAxiosError only_name_Test
              (World [Resolved (JObj {["data" := JArr [Reference.other_workflow;
                                                       Reference.test_workflow]]});
                      Resolved Reference.test_workflow; Resolved JNull] [])
              eq_refl) as [_ Hfound'].
  destruct (Hfound' _ _ _ _ eq_refl eq_refl scripted_list_body reference_first_match)
    as [_ Hput].
  destruct (Hput _ _ eq_refl eq_refl) as [_ Hnull].
  destruct (Hnull _ _ eq_refl eq_refl) as [text Htext].
  split; [|split].
  - eexists. exact (Hlist _ _ eq_refl).
  - eexists. exact (Hfetch _ _ eq_refl).
  - eexists _, _. split; [exact Htext | reflexivity].
Defined.

Lemma update_body_precedence_witness :
  ∃ body,
    update_body activate_Test Reference.test_workflow Reference.other_workflow
    = JObj body
    ∧ body !! "active" = Some (JBool true)
    ∧ body !! "tags" = Some (JArr [])
    ∧ body !! "id" = Some (JStr "wf0").
Proof.
  destruct (update_body_precedence activate_Test Reference.test_workflow
              Reference.other_workflow)
    as (body & Hbody & _ & Hfields & _ & Hother).
  exists body. split; [exact Hbody|]. split; [|split].
  - rewrite (Hfields "active") by (apply (bool_decide_unpack _); vm_compute; exact I).
    reflexivity.
  - rewrite (Hfields "tags") by (apply (bool_decide_unpack _); vm_compute; exact I).
    reflexivity.
  - rewrite (Hother "id");
      [reflexivity | apply (bool_decide_unpack _); vm_compute; exact I | discriminate].
Defined.

Lemma execute_reads_declared_arguments_witness :
  Reference.execute (<["settings" := JObj {["timezone" := JStr "CET"]}]> only_name_Test)
    Reference.initial
  = Reference.execute only_name_Test Reference.initial.
Proof.
  apply execute_reads_declared_arguments.
  intros k Hk. apply lookup_insert_ne. intros <-.
  destruct Hk as [v Hv]. discriminate.
Defined.

Lemma call_tool_is_transparent_witness :
  call_tool (toolHandlers Reference.serve Reference.handleAxiosError
               Reference.other_execute)
    "update_workflow" (Some only_name_Test) Reference.initial
  = Reference.execute only_name_Test Reference.initial
  ∧ call_tool {["echo" := λ args, ret (Envelope [JsonContent (JObj args)] false)]}
      "echo" (Some only_name_Test) Reference.initial
    = (Return (Envelope [JsonContent (JObj only_name_Test)] false), Reference.initial).
Proof.
  destruct (call_tool_is_transparent Reference.serve Reference.handleAxiosError
              Reference.other_execute) as (Hany & Hupdate & _).
  split; [exact (Hupdate (Some only_name_Test) Reference.initial)|].
  exact (Hany {["echo" := λ args, ret (Envelope [JsonContent (JObj args)] false)]}
           "echo" (Some only_name_Test) Reference.initial _ _ _ eq_refl eq_refl).
Defined.

Lemma registry_has_eleven_tools_witness :
  call_tool (toolHandlers Reference.serve Reference.handleAxiosError
               Reference.other_execute)
    "update_tag" None Reference.initial
  = (Return (Envelope [TextContent "Error: Unknown tool: update_tag"] true),
     Reference.initial).
Proof.
  destruct (registry_has_eleven_tools Reference.serve Reference.handleAxiosError
              Reference.other_execute "update_tag") as (_ & _ & _ & Hunknown).
  apply Hunknown. apply (bool_decide_unpack _). vm_compute. exact I.
Defined.

Lemma toolsObject_keeps_last_witness :
  toolsObject [getUpdateWorkflowToolDefinition;
               Tool "update_workflow" "a second definition" JNull]
    !! "update_workflow"
  = Some (Tool "update_workflow" "a second definition" JNull)
  ∧ toolsObject [getUpdateWorkflowToolDefinition] !! "update_workflow"
    = Some getUpdateWorkflowToolDefinition.
Proof.
  destruct (toolsObject_keeps_last
              [getUpdateWorkflowToolDefinition;
               Tool "update_workflow" "a second definition" JNull])
    as (Hlast & _).
  destruct (toolsObject_keeps_last [getUpdateWorkflowToolDefinition])
    as (_ & _ & _ & Hdistinct).
  split.
  - rewrite (Hlast "update_workflow") by discriminate. reflexivity.
  - apply (Hdistinct (NoDup_singleton _) getUpdateWorkflowToolDefinition).
    + apply list_elem_of_here.
    + discriminate.
Defined.

Lemma checkConnectivity_succeeds_iff_witness :
  (∃ w', Connectivity.checkConnectivity Scripted.respond Reference.handleAxiosError
           false (World [Connectivity.Replied (Connectivity.Response 200 JNull)] [])
         = (Return tt, w'))
  ∧ Connectivity.checkConnectivity Scripted.respond Reference.handleAxiosError
      true (World [Connectivity.Replied (Connectivity.Response 204 JNull)] [])
    = (Throw (Reference.handleAxiosError
                (N8nApiError "n8n API connectivity check failed" (Some 204%Z))
                "Failed to connect to n8n API"),
       World [] [probe]).
Proof.
  destruct (checkConnectivity_succeeds_iff Scripted.respond Reference.handleAxiosError
              false (World [Connectivity.Replied (Connectivity.Response 200 JNull)] []))
    as (_ & [_ Hok] & _ & _).
  destruct (checkConnectivity_succeeds_iff Scripted.respond Reference.handleAxiosError
              true (World [Connectivity.Replied (Connectivity.Response 204 JNull)] []))
    as (_ & _ & _ & Hstatus).
  split.
  - apply Hok. exists (Connectivity.Response 200 JNull), [].
    split; [reflexivity | split; [reflexivity | discriminate]].
  - apply (Hstatus _ _ eq_refl). discriminate.
Defined.

Lemma execute_on_unusable_list_witness :
  UpdateWorkflowHandler.execute Scripted.serve Reference.handleAxiosError
    only_name_Test (World [Resolved (JObj ∅)] [])
  = (Return (Envelope [TextContent ("Workflow with name " +:+ dquote +:+ "Test"
                                    +:+ dquote +:+ " not found")] true),
     World [] [list_request])
  ∧ (∃ text,
       UpdateWorkflowHandler.execute Scripted.serve Reference.handleAxiosError
         only_name_Test
         (World [Resolved (JObj {["data" := JArr [JNull; Reference.test_workflow]]})] [])
       = (Return (Envelope [TextContent text] true), World [] [list_request])).
Proof.
  destruct (execute_on_unusable_list Scripted.serve Reference.handleAxiosError
              only_name_Test (World [Resolved (JObj ∅)] []) _ _
              eq_refl eq_refl eq_refl) as (Hfalsy & _ & _).
  destruct (execute_on_unusable_list Scripted.serve Reference.handleAxiosError
              only_name_Test
              (World [Resolved (JObj {["data" := JArr [JNull; Reference.test_workflow]]})]
                 [])
              _ _ eq_refl eq_refl eq_refl) as (_ & _ & Hnull).
  split; [exact (Hfalsy eq_refl)|].
  exact (Hnull [] JNull [Reference.test_workflow] eq_refl (Forall_nil_2 _) eq_refl).
Defined.

(** One call on the reference upstream: the three requests, the fetch and
    the PUT addressed to the id of the entry named "Test". *)
Example execute_three_requests :
  sent (snd (Reference.execute activate_Test Reference.initial))
  = [list_request;
     fetch_request (member Reference.test_workflow "id");
     put_request (member Reference.test_workflow "id")
       (update_body activate_Test Reference.test_workflow Reference.test_workflow)].
Proof. vm_compute. reflexivity. Qed.

Lemma execute_request_discipline_witness :
  ∃ requests,
    sent (snd (Reference.execute activate_Test Reference.initial)) = requests
    ∧ (requests = []
       ∨ requests = [list_request]
       ∨ ∃ body s ws old,
           Reference.serve list_request (upstream Reference.initial)
           = (Resolved body, s)
           ∧ member body "data" = JArr ws
           ∧ first_match (prop activate_Test "name") ws old
           ∧ (requests = [list_request; fetch_request (member old "id")]
              ∨ ∃ current s1,
                  Reference.serve (fetch_request (member old "id")) s
                  = (Resolved current, s1)
                  ∧ nullish current = false
                  ∧ requests
                    = [list_request; fetch_request (member old "id");
                       put_request (member old "id")
                         (update_body activate_Test old current)])).
Proof.
  exact (execute_request_discipline Reference.serve Reference.handleAxiosError
           activate_Test Reference.initial).
Defined.
